(** * AdvancedMeasureTool: the measurement session of the QGIS plugin

    A shallow embedding of [src/AdvancedMeasureTool.py].  The map tool
    [_MeasureMapTool] is a record of its instance attributes, every event
    handler is a function on that record, and the host (message bar, project
    layers, the canvas' current tool) is a second record threaded through the
    handlers.  What the handlers only read from the host at the time of an
    event (the canvas reference system, the project ellipsoid, the pixel to
    map conversion, the clock) is the [Env] delivered with the event.

    Python floats are kept abstract: the handlers use [+], [/], [round] and
    the [:.Nf] format, and nothing else, so the model is written over an
    interface [PyFloat] with exactly these operations.  The geodesic length
    engine and the coordinate transform are external services ([Geodesy]).
    An exact rational instance is given further down to run the handlers on
    concrete inputs. *)

From Stdlib Require Import ZArith QArith Qround Qabs Lia Lqa DecimalString.
From stdpp Require Import base list strings.

Local Open Scope Z_scope.

(** ** Python values the tool uses *)

(** Exceptions the handlers can raise on an ill-formed table. *)
Inductive PyError := IndexError | TypeError.

Inductive Result (A : Type) : Type :=
  | Ok (a : A)
  | Raise (e : PyError).
Arguments Ok {A} a.
Arguments Raise {A} e.

#[global] Instance Result_ret : MRet Result := fun A a => Ok a.

#[global] Instance Result_bind : MBind Result := fun A B k m =>
  match m with
  | Ok a => k a
  | Raise e => Raise e
  end.

(** [l[i]] for a Python list: negative indices count from the end, anything
    else out of range raises IndexError. *)
Definition py_index {A : Type} (l : list A) (i : Z) : Result nat :=
  let len := Z.of_nat (length l) in
  if (0 <=? i) && (i <? len) then Ok (Z.to_nat i)
  else if (- len <=? i) && (i <? 0) then Ok (Z.to_nat (len + i))
  else Raise IndexError.

Definition py_getitem {A : Type} (l : list A) (i : Z) : Result A :=
  k ← py_index l i;
  match l !! k with
  | Some a => Ok a
  | None => Raise IndexError
  end.

(** [s or d] on strings: the empty string is falsy. *)
Definition py_or (s d : string) : string :=
  match s with
  | EmptyString => d
  | _ => s
  end.

(** The float operations of the source. *)
Class PyFloat (num : Type) := {
  f0 : num;                          (* 0.0 *)
  f1852 : num;                       (* 1852.0 *)
  fadd : num -> num -> num;          (* x + y *)
  fdiv : num -> num -> num;          (* x / y *)
  pyround : num -> Z -> num;         (* round(x, ndigits) *)
  fformat : Z -> num -> string       (* f"{x:.Nf}" *)
}.

(** ** Host types *)

Record QgsCoordinateReferenceSystem := {
  authid : string;
  isGeographic : bool
}.

(** [QgsCoordinateReferenceSystem("EPSG:4326")] *)
Definition wgs84_crs : QgsCoordinateReferenceSystem :=
  {| authid := "EPSG:4326"; isGeographic := true |}.

Inductive MouseButton := LeftButton | RightButton | MiddleButton.
Inductive Key := Key_Escape | Key_Other (code : Z).
Inductive MessageLevel := Info | Warning | Critical.
Inductive QVariantType := QInt | QString | QDouble.

Record Message := {
  msg_title : string;
  msg_text : string;
  msg_level : MessageLevel;
  msg_duration : Z
}.

(** Which tool the canvas currently has: [canvas.mapTool()] is compared with
    the plugin's tool object by identity only. *)
Inductive CanvasTool := NoMapTool | MeasureTool | OtherMapTool.

Definition button_eqb (a b : MouseButton) : bool :=
  match a, b with
  | LeftButton, LeftButton | RightButton, RightButton
  | MiddleButton, MiddleButton => true
  | _, _ => false
  end.

Definition key_eqb (a b : Key) : bool :=
  match a, b with
  | Key_Escape, Key_Escape => true
  | Key_Other x, Key_Other y => x =? y
  | _, _ => false
  end.

Definition canvas_tool_eqb (a b : CanvasTool) : bool :=
  match a, b with
  | NoMapTool, NoMapTool | MeasureTool, MeasureTool
  | OtherMapTool, OtherMapTool => true
  | _, _ => false
  end.

(** A [QgsDistanceArea] after [setSourceCrs] and [setEllipsoid]. *)
Record QgsDistanceArea (TC : Type) := {
  sourceCrs : QgsCoordinateReferenceSystem;
  context : TC;
  da_ellipsoid : string
}.
Arguments sourceCrs {TC} _.
Arguments context {TC} _.
Arguments da_ellipsoid {TC} _.

Section Model.

Context {num : Type} {F : PyFloat num}.

Record QgsPointXY := { x : num; y : num }.

(** A line geometry is the list of its vertices
    ([QgsGeometry.fromPolylineXY]). *)
Definition Polyline := list QgsPointXY.

(** The external collaborators: the length engine and the transform
    service. *)
Class Geodesy (TC : Type) := {
  measureLength : QgsDistanceArea TC -> Polyline -> num;
  transform : QgsCoordinateReferenceSystem -> QgsCoordinateReferenceSystem ->
              QgsPointXY -> QgsPointXY
}.

Context {TC : Type} {G : Geodesy TC}.

(** What a handler reads from the host at the instant of the event. *)
Record Env := {
  destinationCrs : QgsCoordinateReferenceSystem; (* canvas.mapSettings().destinationCrs() *)
  ellipsoid : string;                            (* QgsProject.instance().ellipsoid() *)
  transformContext : TC;                         (* QgsProject.instance().transformContext() *)
  toMapCoordinates : Z * Z -> QgsPointXY;        (* self.toMapCoordinates *)
  now : string                                   (* datetime.now().strftime(...) *)
}.

(** One row of [table_rows]. *)
Record Row := {
  Line_ID : Z;
  P1x : num;
  P1y : num;
  P2x : option num;
  P2y : option num;
  length_m : option num;
  length_nm : option num;
  cum_length_m : option num;
  cum_length_nm : option num
}.

Inductive QVariant :=
  | VInt (z : Z)
  | VString (s : string)
  | VDouble (d : num)
  | VNull.

Record QgsFeature := {
  geometry : Polyline;
  attributes : list QVariant
}.

Record QgsVectorLayer := {
  layer_uri : string;
  layer_name : string;
  layer_fields : list (string * QVariantType);
  layer_features : list QgsFeature
}.

(** The part of the host the handlers write to. *)
Record Host := {
  messageBar : list Message;
  mapLayers : list QgsVectorLayer;
  attributeTables : list QgsVectorLayer;
  mapTool : CanvasTool;
  action_checked : bool
}.

(** The instance attributes of [_MeasureMapTool]. *)
Record MeasureMapTool := {
  table_rows : list Row;
  n : Z;
  var_cum_length_m : num;
  last_point : option QgsPointXY;
  click_count : Z;
  is_measuring : bool;
  temp_rb : Polyline;
  main_rb : Polyline;
  da : QgsDistanceArea TC;
  point_id_counter : Z
}.


Record QgsMapMouseEvent := {
  button : MouseButton;
  pos : Z * Z
}.

(** *** Attribute assignment *)

Definition set_table_rows (v : list Row) (t : MeasureMapTool) : MeasureMapTool :=
  {| table_rows := v; n := n t; var_cum_length_m := var_cum_length_m t;
     last_point := last_point t; click_count := click_count t;
     is_measuring := is_measuring t; temp_rb := temp_rb t;
     main_rb := main_rb t; da := da t;
     point_id_counter := point_id_counter t |}.

Definition set_n (v : Z) (t : MeasureMapTool) : MeasureMapTool :=
  {| table_rows := table_rows t; n := v;
     var_cum_length_m := var_cum_length_m t;
     last_point := last_point t; click_count := click_count t;
     is_measuring := is_measuring t; temp_rb := temp_rb t;
     main_rb := main_rb t; da := da t;
     point_id_counter := point_id_counter t |}.

Definition set_var_cum_length_m (v : num) (t : MeasureMapTool) : MeasureMapTool :=
  {| table_rows := table_rows t; n := n t; var_cum_length_m := v;
     last_point := last_point t; click_count := click_count t;
     is_measuring := is_measuring t; temp_rb := temp_rb t;
     main_rb := main_rb t; da := da t;
     point_id_counter := point_id_counter t |}.

Definition set_last_point (v : option QgsPointXY) (t : MeasureMapTool) : MeasureMapTool :=
  {| table_rows := table_rows t; n := n t;
     var_cum_length_m := var_cum_length_m t;
     last_point := v; click_count := click_count t;
     is_measuring := is_measuring t; temp_rb := temp_rb t;
     main_rb := main_rb t; da := da t;
     point_id_counter := point_id_counter t |}.

Definition set_click_count (v : Z) (t : MeasureMapTool) : MeasureMapTool :=
  {| table_rows := table_rows t; n := n t;
     var_cum_length_m := var_cum_length_m t;
     last_point := last_point t; click_count := v;
     is_measuring := is_measuring t; temp_rb := temp_rb t;
     main_rb := main_rb t; da := da t;
     point_id_counter := point_id_counter t |}.

Definition set_is_measuring (v : bool) (t : MeasureMapTool) : MeasureMapTool :=
  {| table_rows := table_rows t; n := n t;
     var_cum_length_m := var_cum_length_m t;
     last_point := last_point t; click_count := click_count t;
     is_measuring := v; temp_rb := temp_rb t;
     main_rb := main_rb t; da := da t;
     point_id_counter := point_id_counter t |}.

Definition set_temp_rb (v : Polyline) (t : MeasureMapTool) : MeasureMapTool :=
  {| table_rows := table_rows t; n := n t;
     var_cum_length_m := var_cum_length_m t;
     last_point := last_point t; click_count := click_count t;
     is_measuring := is_measuring t; temp_rb := v;
     main_rb := main_rb t; da := da t;
     point_id_counter := point_id_counter t |}.

Definition set_main_rb (v : Polyline) (t : MeasureMapTool) : MeasureMapTool :=
  {| table_rows := table_rows t; n := n t;
     var_cum_length_m := var_cum_length_m t;
     last_point := last_point t; click_count := click_count t;
     is_measuring := is_measuring t; temp_rb := temp_rb t;
     main_rb := v; da := da t;
     point_id_counter := point_id_counter t |}.

Definition set_point_id_counter (v : Z) (t : MeasureMapTool) : MeasureMapTool :=
  {| table_rows := table_rows t; n := n t;
     var_cum_length_m := var_cum_length_m t;
     last_point := last_point t; click_count := click_count t;
     is_measuring := is_measuring t; temp_rb := temp_rb t;
     main_rb := main_rb t; da := da t;
     point_id_counter := v |}.

Definition set_P2x (v : option num) (r : Row) : Row :=
  {| Line_ID := Line_ID r; P1x := P1x r; P1y := P1y r;
     P2x := v; P2y := P2y r;
     length_m := length_m r; length_nm := length_nm r;
     cum_length_m := cum_length_m r; cum_length_nm := cum_length_nm r |}.

Definition set_P2y (v : option num) (r : Row) : Row :=
  {| Line_ID := Line_ID r; P1x := P1x r; P1y := P1y r;
     P2x := P2x r; P2y := v;
     length_m := length_m r; length_nm := length_nm r;
     cum_length_m := cum_length_m r; cum_length_nm := cum_length_nm r |}.

Definition set_lengths (lm lnm cm cnm : num) (r : Row) : Row :=
  {| Line_ID := Line_ID r; P1x := P1x r; P1y := P1y r;
     P2x := P2x r; P2y := P2y r;
     length_m := Some lm; length_nm := Some lnm;
     cum_length_m := Some cm; cum_length_nm := Some cnm |}.

(** [messageBar().pushMessage(...)], [messageBar().clearWidgets()] *)
Definition pushMessage (m : Message) (h : Host) : Host :=
  {| messageBar := messageBar h ++ [m]; mapLayers := mapLayers h;
     attributeTables := attributeTables h; mapTool := mapTool h;
     action_checked := action_checked h |}.

Definition clearWidgets (h : Host) : Host :=
  {| messageBar := []; mapLayers := mapLayers h;
     attributeTables := attributeTables h; mapTool := mapTool h;
     action_checked := action_checked h |}.

(** [QgsProject.instance().addMapLayer(layer)] followed by
    [iface.showAttributeTable(layer)] *)
Definition addMapLayer (l : QgsVectorLayer) (h : Host) : Host :=
  {| messageBar := messageBar h; mapLayers := mapLayers h ++ [l];
     attributeTables := attributeTables h; mapTool := mapTool h;
     action_checked := action_checked h |}.

Definition showAttributeTable (l : QgsVectorLayer) (h : Host) : Host :=
  {| messageBar := messageBar h; mapLayers := mapLayers h;
     attributeTables := attributeTables h ++ [l]; mapTool := mapTool h;
     action_checked := action_checked h |}.

(** [canvas.setMapTool] / [canvas.unsetMapTool] with
    [measure_action.setChecked]; the tool class overrides neither
    [activate] nor [deactivate]. *)
Definition setMapTool (c : CanvasTool) (chk : bool) (h : Host) : Host :=
  {| messageBar := messageBar h; mapLayers := mapLayers h;
     attributeTables := attributeTables h; mapTool := c;
     action_checked := chk |}.

(** [l[i] = f(l[i])]: the in-place update of one element. *)
Definition py_update {A : Type} (l : list A) (i : Z) (f : A -> A) : Result (list A) :=
  k ← py_index l i;
  match l !! k with
  | Some a => Ok (<[k := f a]> l)
  | None => Raise IndexError
  end.

(** [QgsPointXY(a, b)] on two table cells: a cell holding None is a
    TypeError. *)
Definition make_point (a b : option num) : Result QgsPointXY :=
  match a, b with
  | Some u, Some v => Ok {| x := u; y := v |}
  | _, _ => Raise TypeError
  end.

(** ** The map tool *)

(** The calculator built from the canvas and the project as they are when
    it is built. *)
Definition distance_area (env : Env) : QgsDistanceArea TC :=
  {| sourceCrs := destinationCrs env;
     context := transformContext env;
     da_ellipsoid := py_or (ellipsoid env) "WGS84" |}.

(** [_MeasureMapTool.__init__] *)
Definition MeasureMapTool_init (env : Env) : MeasureMapTool :=
  {| table_rows := []; n := 0; var_cum_length_m := f0;
     last_point := None; click_count := 0; is_measuring := false;
     temp_rb := []; main_rb := [];
     da := distance_area env;
     point_id_counter := 0 |}.

Definition start_new_measurement (t : MeasureMapTool) : MeasureMapTool :=
  {| is_measuring := true; table_rows := []; n := 0;
     point_id_counter := 0; var_cum_length_m := f0; click_count := 1;
     last_point := None; main_rb := []; temp_rb := []; da := da t |}.

Definition _measure_length_dynamic (env : Env) (geom : Polyline) : num :=
  measureLength (distance_area env) geom.

Definition calculate_segment (env : Env) (idx : Z) (t : MeasureMapTool)
  : Result MeasureMapTool :=
  r ← py_getitem (table_rows t) idx;
  let p1 := {| x := P1x r; y := P1y r |} in
  p2 ← make_point (P2x r) (P2y r);
  let geom := [p1; p2] in
  let length_m := _measure_length_dynamic env geom in
  let length_nm := fdiv length_m f1852 in
  let t := set_var_cum_length_m (fadd (var_cum_length_m t) length_m) t in
  let cum_nm := fdiv (var_cum_length_m t) f1852 in
  rows ← py_update (table_rows t) idx
           (set_lengths (pyround length_m 1) (pyround length_nm 2)
                        (pyround (var_cum_length_m t) 1) (pyround cum_nm 2));
  Ok (set_table_rows rows t).

(** The row appended at a click: only P1 is stored. *)
Definition new_row (id : Z) (pt : QgsPointXY) : Row :=
  {| Line_ID := id;
     P1x := pyround (x pt) 6; P1y := pyround (y pt) 6;
     P2x := None; P2y := None;
     length_m := None; length_nm := None;
     cum_length_m := None; cum_length_nm := None |}.

Definition canvasPressEvent (env : Env) (event : QgsMapMouseEvent)
    (t : MeasureMapTool) : Result MeasureMapTool :=
  if negb (button_eqb (button event) LeftButton) then Ok t
  else
    let pt := toMapCoordinates env (pos event) in
    let t := set_click_count (click_count t + 1) t in
    if click_count t =? 1 then
      let t := start_new_measurement t in
      let t := set_last_point (Some pt) t in
      let t := set_point_id_counter (point_id_counter t + 1) t in
      Ok (set_table_rows
            (table_rows t ++ [new_row (point_id_counter t) pt]) t)
    else
      rows ← py_update (table_rows t) (n t) (set_P2x (Some (pyround (x pt) 6)));
      let t := set_table_rows rows t in
      rows ← py_update (table_rows t) (n t) (set_P2y (Some (pyround (y pt) 6)));
      let t := set_table_rows rows t in
      t ← calculate_segment env (n t) t;
      lp ← match last_point t with
           | Some lp => Ok lp
           | None => Raise TypeError
           end;
      let t := set_main_rb (main_rb t ++ [lp]) t in
      let t := set_main_rb (main_rb t ++ [pt]) t in
      let t := set_last_point (Some pt) t in
      let t := set_point_id_counter (point_id_counter t + 1) t in
      let t := set_n (n t + 1) t in
      Ok (set_table_rows
            (table_rows t ++ [new_row (point_id_counter t) pt]) t).

Definition preview_text (length_m length_nm cum_m cum_nm : num) : string :=
  "Segment: " +:+ fformat 1 length_m +:+ " m (" +:+ fformat 2 length_nm
  +:+ " nm) | Total: " +:+ fformat 1 cum_m +:+ " m (" +:+ fformat 2 cum_nm
  +:+ " nm)".

Definition canvasMoveEvent (env : Env) (event : QgsMapMouseEvent)
    (s : MeasureMapTool * Host) : MeasureMapTool * Host :=
  let (t, h) := s in
  match is_measuring t, last_point t with
  | true, Some lp =>
      let cur_pt := toMapCoordinates env (pos event) in
      let t := set_temp_rb [] t in
      let t := set_temp_rb (temp_rb t ++ [lp]) t in
      let t := set_temp_rb (temp_rb t ++ [cur_pt]) t in
      let geom := [lp; cur_pt] in
      let length_m := measureLength (da t) geom in
      let length_nm := fdiv length_m f1852 in
      let cum_m := fadd (var_cum_length_m t) length_m in
      let cum_nm := fdiv cum_m f1852 in
      let h := clearWidgets h in
      (t, pushMessage
            {| msg_title := "Measure";
               msg_text := preview_text length_m length_nm cum_m cum_nm;
               msg_level := Info; msg_duration := 5 |} h)
  | _, _ => (t, h)
  end.

Definition opt_double (o : option num) : QVariant :=
  match o with
  | Some d => VDouble d
  | None => VNull
  end.

(** The body of the loop of [finish_measurement]: one feature per row. *)
Definition build_feature (crs : QgsCoordinateReferenceSystem) (r : Row)
  : Result QgsFeature :=
  let p1 := {| x := P1x r; y := P1y r |} in
  p2 ← make_point (P2x r) (P2y r);
  let '(x1, y1, x2, y2) :=
    if isGeographic crs then (x p1, y p1, x p2, y p2)
    else
      let geo_p1 := transform crs wgs84_crs p1 in
      let geo_p2 := transform crs wgs84_crs p2 in
      (x geo_p1, y geo_p1, x geo_p2, y geo_p2) in
  let start_wkt := fformat 4 y1 +:+ ", " +:+ fformat 4 x1 in
  let stop_wkt := fformat 4 y2 +:+ ", " +:+ fformat 4 x2 in
  Ok {| geometry := [p1; p2];
        attributes := [ VInt (Line_ID r); VString start_wkt; VString stop_wkt;
                        opt_double (length_m r); opt_double (length_nm r);
                        opt_double (cum_length_m r);
                        opt_double (cum_length_nm r) ] |}.

Definition measurement_fields : list (string * QVariantType) :=
  [ ("Line_ID", QInt); ("Start", QString); ("Stop", QString);
    ("length_m", QDouble); ("length_nm", QDouble);
    ("cum_length_m", QDouble); ("cum_length_nm", QDouble) ].

Definition finish_measurement (env : Env) (s : MeasureMapTool * Host)
  : Result (MeasureMapTool * Host) :=
  let (t, h) := s in
  let t := set_is_measuring false t in
  let final_rows := filter (fun r => is_Some (P2x r)) (table_rows t) in
  if (Z.of_nat (length final_rows) =? 0) then Ok (t, h)
  else
    let crs := destinationCrs env in
    feats ← mapM (build_feature crs) final_rows;
    let layer :=
      {| layer_uri := "LineString?crs=" +:+ authid crs;
         layer_name := "Measurement_" +:+ now env;
         layer_fields := measurement_fields;
         layer_features := feats |} in
    let h := addMapLayer layer h in
    let h := showAttributeTable layer h in
    let t := set_table_rows [] t in
    let t := set_n 0 t in
    let t := set_point_id_counter 0 t in
    let t := set_var_cum_length_m f0 t in
    let t := set_click_count 0 t in
    let t := set_last_point None t in
    let t := set_is_measuring false t in
    let t := set_main_rb [] t in
    Ok (t, h).

Definition canvasDoubleClickEvent (env : Env) (event : QgsMapMouseEvent)
    (s : MeasureMapTool * Host) : Result (MeasureMapTool * Host) :=
  let (t, h) := s in
  if negb (is_measuring t) then Ok (t, h)
  else
    let t := set_temp_rb [] t in
    finish_measurement env (t, h).

Definition keyPressEvent (key : Key) (s : MeasureMapTool * Host)
  : MeasureMapTool * Host :=
  let (t, h) := s in
  if key_eqb key Key_Escape then
    let t := set_main_rb [] t in
    let t := set_temp_rb [] t in
    (t, pushMessage
          {| msg_title := "AdvancedMeasureTool";
             msg_text := "Measurement cancelled";
             msg_level := Info; msg_duration := 2 |} h)
  else (t, h).

(** ** Event delivery *)

Inductive Event :=
  | CanvasPress (e : QgsMapMouseEvent)
  | CanvasMove (e : QgsMapMouseEvent)
  | CanvasDoubleClick (e : QgsMapMouseEvent)
  | KeyPress (k : Key).

Definition handle (env : Env) (ev : Event) (s : MeasureMapTool * Host)
  : Result (MeasureMapTool * Host) :=
  match ev with
  | CanvasPress e => t ← canvasPressEvent env e s.1; Ok (t, s.2)
  | CanvasMove e => Ok (canvasMoveEvent env e s)
  | CanvasDoubleClick e => canvasDoubleClickEvent env e s
  | KeyPress k => Ok (keyPressEvent k s)
  end.

(** A stream of events, each with the host as it is when the event is
    delivered; an exception ends the run. *)
Fixpoint run (evs : list (Env * Event)) (s : MeasureMapTool * Host)
  : Result (MeasureMapTool * Host) :=
  match evs with
  | [] => Ok s
  | (env, ev) :: rest => s' ← handle env ev s; run rest s'
  end.

(** ** The plugin *)

Record AdvancedMeasureTool := { tool : option MeasureMapTool }.

Definition toggle_tool (env : Env) (s : AdvancedMeasureTool * Host)
  : AdvancedMeasureTool * Host :=
  let (p, h) := s in
  let (t, fresh) :=
    match tool p with
    | None => (MeasureMapTool_init env, true)
    | Some t => (t, false)
    end in
  let p := {| tool := Some t |} in
  if negb fresh && canvas_tool_eqb (mapTool h) MeasureTool then
    (p, setMapTool NoMapTool false h)
  else
    (p, setMapTool MeasureTool true h).

(** ** The table a session is specified to build

    A second, independent description of the segment table: what the
    specification says the table is after a series of accepted clicks, as a
    function of the clicks alone.  The handlers above are compared with it. *)

(** The accepted clicks of an event stream: every primary-button press,
    with the host at that instant and the clicked map point. *)
Definition is_finish (ev : Event) : bool :=
  match ev with
  | CanvasDoubleClick _ => true
  | _ => false
  end.

Fixpoint clicks (evs : list (Env * Event)) : list (Env * QgsPointXY) :=
  match evs with
  | [] => []
  | (env, CanvasPress e) :: rest =>
      if button_eqb (button e) LeftButton
      then (env, toMapCoordinates env (pos e)) :: clicks rest
      else clicks rest
  | _ :: rest => clicks rest
  end.

(** A vertex as the table stores it. *)
Definition stored (pt : QgsPointXY) : QgsPointXY :=
  {| x := pyround (x pt) 6; y := pyround (y pt) 6 |}.

(** The unrounded length of the segment from [start] to [pt], measured
    with the reference system and ellipsoid of [env]. *)
Definition segment_length (env : Env) (start pt : QgsPointXY) : num :=
  measureLength (distance_area env) [stored start; stored pt].

Definition spec_complete_row (id : Z) (start pt : QgsPointXY) (len acc : num) : Row :=
  {| Line_ID := id;
     P1x := x (stored start); P1y := y (stored start);
     P2x := Some (x (stored pt)); P2y := Some (y (stored pt));
     length_m := Some (pyround len 1);
     length_nm := Some (pyround (fdiv len f1852) 2);
     cum_length_m := Some (pyround acc 1);
     cum_length_nm := Some (pyround (fdiv acc f1852) 2) |}.

Definition spec_open_row (id : Z) (start : QgsPointXY) : Row :=
  {| Line_ID := id;
     P1x := x (stored start); P1y := y (stored start);
     P2x := None; P2y := None;
     length_m := None; length_nm := None;
     cum_length_m := None; cum_length_nm := None |}.

(** The unrounded lengths of the segments of a session that starts at
    [start] and continues with the clicks [cs]. *)
Fixpoint spec_lengths (start : QgsPointXY) (cs : list (Env * QgsPointXY)) : list num :=
  match cs with
  | [] => []
  | (env, pt) :: cs' => segment_length env start pt :: spec_lengths pt cs'
  end.

(** The running accumulator after a list of unrounded lengths. *)
Definition accumulate (acc : num) (lens : list num) : num :=
  foldl fadd acc lens.

(** Rows [id], [id+1], ... of a session whose accumulator is [acc] and whose
    open segment starts at [start]. *)
Fixpoint spec_rows (id : Z) (acc : num) (start : QgsPointXY)
    (cs : list (Env * QgsPointXY)) : list Row :=
  match cs with
  | [] => [spec_open_row id start]
  | (env, pt) :: cs' =>
      let len := segment_length env start pt in
      let acc' := fadd acc len in
      spec_complete_row id start pt len acc' :: spec_rows (id + 1) acc' pt cs'
  end.

Definition spec_last (start : QgsPointXY) (cs : list (Env * QgsPointXY)) : QgsPointXY :=
  default start (last (start :: map snd cs)).

(** A row is complete when its end vertex is present. *)
Definition complete (r : Row) : bool :=
  match P2x r with
  | Some _ => true
  | None => false
  end.

(** The ids [a], [a+1], ..., [a+k-1]. *)
Definition ids_from (a : Z) (k : nat) : list Z :=
  map (fun i => a + Z.of_nat i) (seq 0 k).

(** The layer [finish_measurement] creates around the features [feats]. *)
Definition measurement_layer (env : Env) (feats : list QgsFeature)
  : QgsVectorLayer :=
  {| layer_uri := "LineString?crs=" +:+ authid (destinationCrs env);
     layer_name := "Measurement_" +:+ now env;
     layer_fields := measurement_fields;
     layer_features := feats |}.

(** The text of a point as the specification has it: latitude, then
    longitude, four decimals each. *)
Definition lat_lon_text (p : QgsPointXY) : string :=
  fformat 4 (y p) +:+ ", " +:+ fformat 4 (x p).

(** A session with nothing in progress. *)
Definition fresh_session (t : MeasureMapTool) : Prop :=
  table_rows t = [] /\ click_count t = 0 /\ point_id_counter t = 0 /\
  var_cum_length_m t = f0 /\ last_point t = None.

(** The two readings of the toggle that the specification gives: toggling
    the active tool off discards the session, and the activation after it
    starts on a fresh one. *)
Definition toggle_discards_session (env : Env)
    (s : AdvancedMeasureTool * Host) : Prop :=
  forall t', tool (toggle_tool env s).1 = Some t' -> fresh_session t'.

Definition reactivation_is_fresh (env : Env)
    (s : AdvancedMeasureTool * Host) : Prop :=
  forall t', tool (toggle_tool env (toggle_tool env s)).1 = Some t' ->
             fresh_session t'.

(** The first segment of the two-click session [a], [b] has, as stored
    length, the rounded length between the images of the two clicked points
    under [f]: [f] is the identity when the raw points are measured, and
    [stored] when the table's vertices are. *)
Definition first_segment_measured_between (f : QgsPointXY -> QgsPointXY)
    (env1 env2 : Env) (a b : Z * Z) (s : MeasureMapTool * Host) : Prop :=
  exists t' h' r,
    run [ (env1, CanvasPress {| button := LeftButton; pos := a |});
          (env2, CanvasPress {| button := LeftButton; pos := b |}) ] s
      = Ok (t', h') /\
    table_rows t' !! 0%nat = Some r /\
    length_m r =
      Some (pyround (measureLength (distance_area env2)
                       [f (toMapCoordinates env1 a); f (toMapCoordinates env2 b)])
                    1).

(** ** Invariants of a running session *)

(** The state in the middle of a session: [pre] holds the complete rows,
    followed by the open row [id] that starts at [start]. *)
Record OpenSession (pre : list Row) (id : Z) (acc : num)
    (start : QgsPointXY) (t : MeasureMapTool) : Prop := {
  os_rows : table_rows t = pre ++ [spec_open_row id start];
  os_n : n t = Z.of_nat (length pre);
  os_acc : var_cum_length_m t = acc;
  os_id : point_id_counter t = id;
  os_last : last_point t = Some start;
  os_clicks : 1 <= click_count t
}.

(** Two tool states that differ at most in the two overlays. *)
Record same_session (t t' : MeasureMapTool) : Prop := {
  ss_rows : table_rows t' = table_rows t;
  ss_n : n t' = n t;
  ss_acc : var_cum_length_m t' = var_cum_length_m t;
  ss_last : last_point t' = last_point t;
  ss_clicks : click_count t' = click_count t;
  ss_measuring : is_measuring t' = is_measuring t;
  ss_da : da t' = da t;
  ss_id : point_id_counter t' = point_id_counter t
}.

(** What a session that was open with [pre], [id], [acc], [start] has
    become after the further clicks [cs]. *)
Record Continued (pre : list Row) (id : Z) (acc : num) (start : QgsPointXY)
    (cs : list (Env * QgsPointXY)) (t t' : MeasureMapTool) : Prop := {
  ct_rows : table_rows t' = pre ++ spec_rows id acc start cs;
  ct_n : n t' = Z.of_nat (length pre + length cs);
  ct_acc : var_cum_length_m t' = accumulate acc (spec_lengths start cs);
  ct_id : point_id_counter t' = id + Z.of_nat (length cs);
  ct_last : last_point t' = Some (spec_last start cs);
  ct_clicks : click_count t' = click_count t + Z.of_nat (length cs);
  ct_measuring : is_measuring t' = is_measuring t;
  ct_da : da t' = da t
}.

(** A session from its first click on: the table, the counters and the
    accumulator are those of the specification. *)
Record Session (start : QgsPointXY) (cs : list (Env * QgsPointXY))
    (t t' : MeasureMapTool) : Prop := {
  se_rows : table_rows t' = spec_rows 1 f0 start cs;
  se_n : n t' = Z.of_nat (length cs);
  se_acc : var_cum_length_m t' = accumulate f0 (spec_lengths start cs);
  se_id : point_id_counter t' = Z.of_nat (S (length cs));
  se_last : last_point t' = Some (spec_last start cs);
  se_clicks : click_count t' = Z.of_nat (S (length cs));
  se_measuring : is_measuring t' = true;
  se_da : da t' = da t
}.

(** ** The rest of the plugin and of the session's life cycle *)

(** [canvas.unsetMapTool(tool)] when [tool] is the canvas' tool. *)
Definition unsetMapTool (h : Host) : Host :=
  {| messageBar := messageBar h; mapLayers := mapLayers h;
     attributeTables := attributeTables h; mapTool := NoMapTool;
     action_checked := action_checked h |}.

(** [AdvancedMeasureTool.unload], on the tool and the canvas.  Its first
    block removes the toolbar inside [try ... except Exception] and sets
    [self.toolbar = None]: it reads and writes neither [self.tool] nor the
    canvas' tool, and lets no exception out, so the second block always
    runs, on the state modelled here. *)
Definition unload (s : AdvancedMeasureTool * Host) : AdvancedMeasureTool * Host :=
  let (p, h) := s in
  match tool p with
  | Some _ =>
      if canvas_tool_eqb (mapTool h) MeasureTool
      then ({| tool := None |}, unsetMapTool h)
      else (p, h)
  | None => (p, h)
  end.

(** A row with both coordinates of its end vertex. *)
Definition full_row (r : Row) : Prop := is_Some (P2x r) /\ is_Some (P2y r).

(** No session in progress: the state of a new tool and the state after a
    finalization that produced a layer. *)
Record Idle (t : MeasureMapTool) : Prop := {
  id_rows : table_rows t = [];
  id_n : n t = 0;
  id_acc : var_cum_length_m t = f0;
  id_id : point_id_counter t = 0;
  id_last : last_point t = None;
  id_clicks : click_count t = 0;
  id_measuring : is_measuring t = false
}.

(** A session in progress: the rows [pre] are full and numbered from 1, the
    open row comes next, and the counters agree with the table. *)
Record Measuring (pre : list Row) (start : QgsPointXY) (t : MeasureMapTool)
  : Prop := {
  ms_open : OpenSession pre (Z.of_nat (S (length pre)))
              (var_cum_length_m t) start t;
  ms_clicks : click_count t = Z.of_nat (S (length pre));
  ms_full : Forall full_row pre;
  ms_ids : map Line_ID pre = ids_from 1 (length pre)
}.

Definition WellFormed (t : MeasureMapTool) : Prop :=
  Idle t \/ exists pre start, Measuring pre start t.

(** The committed overlay of a session, as drawn click by click: both raw
    end points of every segment. *)
Fixpoint spec_overlay (start : QgsPointXY) (cs : list (Env * QgsPointXY))
  : Polyline :=
  match cs with
  | [] => []
  | (_, pt) :: cs' => start :: pt :: spec_overlay pt cs'
  end.

Definition is_escape (ev : Event) : bool :=
  match ev with
  | KeyPress k => key_eqb k Key_Escape
  | _ => false
  end.

End Model.

Arguments QgsPointXY : clear implicits.
Arguments Polyline : clear implicits.
Arguments Geodesy : clear implicits.
Arguments Env : clear implicits.
Arguments Row : clear implicits.
Arguments QVariant : clear implicits.
Arguments QgsFeature : clear implicits.
Arguments QgsVectorLayer : clear implicits.
Arguments Host : clear implicits.
Arguments MeasureMapTool : clear implicits.
Arguments AdvancedMeasureTool : clear implicits.
Arguments Event : clear implicits.

(** ** An exact instance

    Decimal arithmetic on rationals kept in lowest terms: [round] and the
    [:.Nf] format round half to even on the exact value.  The length engine
    of this instance measures a polyline by the sum of the coordinate
    differences of its legs, in metres for a projected reference system and
    at 111320 metres per degree for a geographic one; its transform divides
    by the same factor.  It is used to run the handlers on concrete
    events. *)

Definition pow10 (d : Z) : Q :=
  if 0 <=? d then inject_Z (10 ^ d) else Qinv (inject_Z (10 ^ (- d))).

Definition round_half_even (q : Q) : Z :=
  let f := Qfloor q in
  match Qcompare (Qminus q (inject_Z f)) (1 # 2) with
  | Lt => f
  | Gt => f + 1
  | Eq => if Z.even f then f else f + 1
  end.

Definition q_round (q : Q) (d : Z) : Q :=
  Qred (Qdiv (inject_Z (round_half_even (Qmult q (pow10 d)))) (pow10 d)).

Definition string_of_Z (z : Z) : string :=
  NilZero.string_of_int (Z.to_int z).

Definition q_format (d : Z) (q : Q) : string :=
  let m := round_half_even (Qmult q (pow10 d)) in
  let s := 10 ^ d in
  let frac := string_of_Z (s + Z.abs m mod s) in
  (if m <? 0 then "-" else EmptyString)
  +:+ string_of_Z (Z.abs m / s) +:+ "."
  +:+ match frac with
      | String _ digits => digits
      | EmptyString => EmptyString
      end.

#[global] Instance Q_float : PyFloat Q := {|
  f0 := 0 # 1;
  f1852 := 1852 # 1;
  fadd := fun a b => Qred (Qplus a b);
  fdiv := fun a b => Qred (Qdiv a b);
  pyround := q_round;
  fformat := q_format
|}.

Definition metres_per_unit (crs : QgsCoordinateReferenceSystem) : Q :=
  if isGeographic crs then 111320 # 1 else 1 # 1.

Fixpoint legs (geom : Polyline Q) : Q :=
  match geom with
  | p :: (q :: _) as rest =>
      Qplus (Qplus (Qabs (Qminus (x q) (x p))) (Qabs (Qminus (y q) (y p))))
            (legs rest)
  | _ => 0 # 1
  end.

#[global] Instance Q_geodesy : Geodesy Q unit := {|
  measureLength := fun d geom =>
    Qred (Qmult (metres_per_unit (sourceCrs d)) (legs geom));
  transform := fun src dst p =>
    let k := Qdiv (metres_per_unit src) (metres_per_unit dst) in
    {| x := Qred (Qmult k (x p)); y := Qred (Qmult k (y p)) |}
|}.

(** *** Concrete hosts and events *)

Definition utm32 : QgsCoordinateReferenceSystem :=
  {| authid := "EPSG:32632"; isGeographic := false |}.

(** A canvas on which one pixel is a ten-millionth of a map unit. *)
Definition fine_grid (p : Z * Z) : QgsPointXY Q :=
  {| x := Qred (Qmake p.1 10000000); y := Qred (Qmake p.2 10000000) |}.

(** A canvas on which one pixel is one map unit. *)
Definition unit_grid (p : Z * Z) : QgsPointXY Q :=
  {| x := inject_Z p.1; y := inject_Z p.2 |}.

Definition env_geo : Env Q unit :=
  {| destinationCrs := wgs84_crs; ellipsoid := "WGS84";
     transformContext := tt; toMapCoordinates := fine_grid;
     now := "20240101_120000" |}.

Definition env_utm : Env Q unit :=
  {| destinationCrs := utm32; ellipsoid := EmptyString;
     transformContext := tt; toMapCoordinates := unit_grid;
     now := "20240101_120500" |}.

Definition env_deg : Env Q unit :=
  {| destinationCrs := wgs84_crs; ellipsoid := "WGS84";
     transformContext := tt; toMapCoordinates := unit_grid;
     now := "20240101_121000" |}.

Definition left_click (a b : Z) : Event :=
  CanvasPress {| button := LeftButton; pos := (a, b) |}.

Definition right_click (a b : Z) : Event :=
  CanvasPress {| button := RightButton; pos := (a, b) |}.

Definition move_to (a b : Z) : Event :=
  CanvasMove {| button := LeftButton; pos := (a, b) |}.

Definition double_click (a b : Z) : Event :=
  CanvasDoubleClick {| button := LeftButton; pos := (a, b) |}.

Definition empty_host : Host Q :=
  {| messageBar := []; mapLayers := []; attributeTables := [];
     mapTool := MeasureTool; action_checked := true |}.

(** A session: three accepted clicks among a move, a right click and an
    escape. *)
Definition three_clicks : list (Env Q unit * Event) :=
  [ (env_geo, left_click 0 0); (env_geo, move_to 5 5);
    (env_geo, right_click 7 7); (env_geo, left_click 14 0);
    (env_geo, KeyPress Key_Escape); (env_geo, left_click 14 25) ].

(** The tool in the middle of that session. *)
Definition measuring_tool : MeasureMapTool Q unit :=
  match run three_clicks (MeasureMapTool_init env_geo, empty_host) with
  | Ok (t, _) => t
  | Raise _ => MeasureMapTool_init env_geo
  end.

Definition measuring_plugin : AdvancedMeasureTool Q unit * Host Q :=
  ({| tool := Some measuring_tool |}, empty_host).

(** A double click as the first gesture on the canvas: Qt delivers its
    first press, then the double click. *)
Definition double_click_first : list (Env Q unit * Event) :=
  [ (env_geo, left_click 0 0); (env_geo, double_click 0 0) ].

(** The same, followed by two more clicks and a second double click. *)
Definition double_click_first_then_measure : list (Env Q unit * Event) :=
  double_click_first ++
  [ (env_geo, left_click 14 0); (env_geo, left_click 20 0);
    (env_geo, double_click 20 0) ].

(** Two clicks 111320 m apart on a UTM canvas, closed by a double click. *)
Definition one_degree_north : list (Env Q unit * Event) :=
  [ (env_utm, left_click 500000 0); (env_utm, left_click 500000 111320);
    (env_utm, double_click 500000 111320) ].

(** The canvas switched from degrees to UTM after the tool was built: a
    click, a move, a click. *)
Definition after_crs_change : list (Env Q unit * Event) :=
  [ (env_utm, left_click 0 0); (env_utm, move_to 3 4);
    (env_utm, left_click 3 4) ].

(** The tool a double click as first gesture leaves behind, and what the
    user does next: two clicks and a double click. *)
Definition flag_off_tool : MeasureMapTool Q unit :=
  match run double_click_first (MeasureMapTool_init env_geo, empty_host) with
  | Ok (t, _) => t
  | Raise _ => MeasureMapTool_init env_geo
  end.

Definition measure_after_double_click : list (Env Q unit * Event) :=
  [ (env_geo, left_click 14 0); (env_geo, left_click 20 0);
    (env_geo, double_click 20 0) ].

(** The clicks of [one_degree_north], without the double click. *)
Definition one_degree_clicks : list (Env Q unit * Event) :=
  [ (env_utm, left_click 500000 0); (env_utm, left_click 500000 111320) ].

(** Three accepted clicks among a move and a right click, no escape. *)
Definition three_clicks_no_escape : list (Env Q unit * Event) :=
  [ (env_geo, left_click 0 0); (env_geo, move_to 5 5);
    (env_geo, right_click 7 7); (env_geo, left_click 14 0);
    (env_geo, left_click 14 25) ].

(** * Properties *)

(** ** Python list indexing at the last element *)

Lemma py_index_last {A : Type} (pre : list A) (a : A) :
  py_index (pre ++ [a]) (Z.of_nat (length pre)) = Ok (length pre).
Proof.
  unfold py_index. rewrite length_app. simpl.
  replace (0 <=? Z.of_nat (length pre)) with true by (symmetry; apply Z.leb_le; lia).
  replace (Z.of_nat (length pre) <? Z.of_nat (length pre + 1)) with true
    by (symmetry; apply Z.ltb_lt; lia).
  simpl. by rewrite Nat2Z.id.
Qed.

Lemma py_getitem_last {A : Type} (pre : list A) (a : A) :
  py_getitem (pre ++ [a]) (Z.of_nat (length pre)) = Ok a.
Proof.
  unfold py_getitem. rewrite py_index_last. simpl.
  by rewrite list_lookup_middle.
Qed.

Lemma py_update_last {A : Type} (pre : list A) (a : A) (f : A -> A) :
  py_update (pre ++ [a]) (Z.of_nat (length pre)) f = Ok (pre ++ [f a]).
Proof.
  unfold py_update. rewrite py_index_last. simpl.
  rewrite list_lookup_middle by done.
  f_equal. rewrite insert_app_r_alt by lia.
  by rewrite Nat.sub_diag.
Qed.

Section Session.

Context {num : Type} {F : PyFloat num} {TC : Type} {G : Geodesy num TC}.

Abbreviation Tool := (MeasureMapTool num TC).
Abbreviation Point := (QgsPointXY num).

Lemma press_first (env : Env num TC) (p : Z * Z) (t : Tool) :
  click_count t = 0 ->
  exists t',
    canvasPressEvent env {| button := LeftButton; pos := p |} t = Ok t' /\
    OpenSession [] 1 f0 (toMapCoordinates env p) t' /\
    click_count t' = 1 /\ is_measuring t' = true /\ da t' = da t.
Proof.
  intros H0. eexists. split.
  - unfold canvasPressEvent. simpl. rewrite H0. simpl. reflexivity.
  - simpl. split; [split; simpl; try done | done].
Qed.

Lemma press_next (env : Env num TC) (p : Z * Z) (t : Tool) pre id acc start :
  OpenSession pre id acc start t ->
  let pt := toMapCoordinates env p in
  let len := segment_length env start pt in
  exists t',
    canvasPressEvent env {| button := LeftButton; pos := p |} t = Ok t' /\
    OpenSession (pre ++ [spec_complete_row id start pt len (fadd acc len)])
                (id + 1) (fadd acc len) pt t' /\
    click_count t' = click_count t + 1 /\
    is_measuring t' = is_measuring t /\ da t' = da t.
Proof.
  intros [Hrows Hn Hacc Hid Hlast Hc] pt len. subst acc id.
  unfold canvasPressEvent. simpl.
  destruct (click_count t + 1 =? 1) eqn:E; [apply Z.eqb_eq in E; lia|].
  rewrite Hrows, Hn, py_update_last. simpl.
  rewrite py_update_last. simpl.
  unfold calculate_segment. simpl.
  rewrite py_getitem_last. simpl.
  rewrite py_update_last. simpl.
  rewrite Hlast. simpl.
  eexists. split; [reflexivity|].
  simpl. split; [|done].
  split; simpl; try done.
  all: try (rewrite length_app; simpl; lia).
  all: try lia.
Qed.

Lemma same_session_refl (t : Tool) : same_session t t.
Proof. by split. Qed.

Lemma move_same_session (env : Env num TC) e (t : Tool) (h : Host num) :
  same_session t (canvasMoveEvent env e (t, h)).1 /\
  mapLayers (canvasMoveEvent env e (t, h)).2 = mapLayers h.
Proof.
  unfold canvasMoveEvent.
  destruct (is_measuring t), (last_point t); simpl; split; try done.
Qed.

Lemma key_same_session (k : Key) (t : Tool) (h : Host num) :
  same_session t (keyPressEvent k (t, h)).1 /\
  mapLayers (keyPressEvent k (t, h)).2 = mapLayers h.
Proof.
  unfold keyPressEvent. destruct (key_eqb k Key_Escape); simpl; by split.
Qed.

Lemma press_other_button (env : Env num TC) e (t : Tool) :
  button e <> LeftButton -> canvasPressEvent env e t = Ok t.
Proof.
  intros Hb. unfold canvasPressEvent.
  destruct (button e); simpl; congruence.
Qed.

Lemma open_same_session pre id acc start (t t' : Tool) :
  same_session t t' ->
  OpenSession pre id acc start t -> OpenSession pre id acc start t'.
Proof.
  intros [? ? ? ? ? ? ? ?] [? ? ? ? ? ?]. split; congruence.
Qed.

(** Any event but a double click keeps the session going: either it is an
    accepted click, or it leaves everything but the overlays as it is. *)
Lemma handle_no_finish (env : Env num TC) (ev : Event) (t : Tool) (h : Host num) :
  is_finish ev = false ->
  (exists p, ev = CanvasPress {| button := LeftButton; pos := p |}) \/
  (clicks [(env, ev)] = [] /\
   exists t' h', handle env ev (t, h) = Ok (t', h') /\
                 same_session t t' /\ mapLayers h' = mapLayers h).
Proof.
  intros Hf. destruct ev as [e|e|e|k]; try discriminate.
  - destruct e as [b p]. destruct b; [left; by eexists| |]; right;
      (split; [done|]); exists t, h; simpl;
      (split; [reflexivity | split; [apply same_session_refl | done]]).
  - right. split; [done|].
    destruct (move_same_session env e t h) as [Hs Hl].
    destruct (canvasMoveEvent env e (t, h)) as [t' h'] eqn:E.
    exists t', h'. unfold handle. by rewrite E.
  - right. split; [done|].
    destruct (key_same_session k t h) as [Hs Hl].
    destruct (keyPressEvent k (t, h)) as [t' h'] eqn:E.
    exists t', h'. unfold handle. by rewrite E.
Qed.

Lemma clicks_cons (env : Env num TC) (ev : Event) rest :
  clicks ((env, ev) :: rest) = clicks [(env, ev)] ++ clicks rest.
Proof.
  destruct ev as [[b p]|e|e|k]; simpl; try done. by destruct b.
Qed.

Lemma spec_last_cons (start : Point) (env : Env num TC) pt cs :
  spec_last start ((env, pt) :: cs) = spec_last pt cs.
Proof.
  unfold spec_last. simpl map. rewrite !last_cons.
  by destruct (last (map snd cs)).
Qed.

Lemma run_open evs :
  forall (t : Tool) (h : Host num) pre id acc start,
    Forall (fun p => is_finish p.2 = false) evs ->
    OpenSession pre id acc start t ->
    exists t' h',
      run evs (t, h) = Ok (t', h') /\
      Continued pre id acc start (clicks evs) t t' /\
      mapLayers h' = mapLayers h.
Proof.
  induction evs as [|[env ev] rest IH]; intros t h pre id acc start Hnf Hop.
  - exists t, h. split; [done|]. split; [|done].
    destruct Hop. split; simpl; try done.
    + rewrite Nat.add_0_r. done.
    + lia.
    + lia.
  - inversion Hnf as [|? ? Hev Hrest]; subst. simpl in Hev.
    destruct (handle_no_finish env ev t h Hev) as [[p ->]|[Hno (t1 & h1 & Hh & Hs & Hl)]].
    + destruct (press_next env p t pre id acc start Hop)
        as (t1 & Hp & Hop1 & Hc1 & Hm1 & Hd1).
      destruct (IH t1 h _ _ _ _ Hrest Hop1) as (t' & h' & Hr & Hct & Hl').
      exists t', h'. split.
      { simpl. simpl in Hp. rewrite Hp. simpl. exact Hr. }
      split; [|done].
      destruct Hct. simpl. split; simpl; try congruence.
      * by rewrite <- app_assoc in ct_rows0.
      * rewrite ct_n0, length_app. simpl. lia.
      * lia.
      * by rewrite spec_last_cons.
      * lia.
    + destruct (IH t1 h1 pre id acc start Hrest (open_same_session _ _ _ _ _ _ Hs Hop))
        as (t' & h' & Hr & Hct & Hl').
      exists t', h'. split.
      { change (run ((env, ev) :: rest) (t, h))
          with (handle env ev (t, h) ≫= run rest).
        rewrite Hh. exact Hr. }
      rewrite clicks_cons, Hno. simpl.
      split; [|congruence].
      destruct Hct, Hs. split; congruence.
Qed.

Lemma run_session evs :
  forall (t : Tool) (h : Host num) env1 p1 cs,
    click_count t = 0 ->
    Forall (fun p => is_finish p.2 = false) evs ->
    clicks evs = (env1, p1) :: cs ->
    exists t' h',
      run evs (t, h) = Ok (t', h') /\ Session p1 cs t t' /\
      mapLayers h' = mapLayers h.
Proof.
  induction evs as [|[env ev] rest IH]; intros t h env1 p1 cs H0 Hnf Hcl;
    [discriminate|].
  inversion Hnf as [|? ? Hev Hrest]; subst. simpl in Hev.
  destruct (handle_no_finish env ev t h Hev)
    as [[p ->]|[Hno (t1 & h1 & Hh & Hs & Hl)]].
  - simpl in Hcl. injection Hcl as <- <- <-.
    destruct (press_first env p t H0) as (t1 & Hp & Hop & Hc1 & Hm1 & Hd1).
    destruct (run_open rest t1 h _ _ _ _ Hrest Hop) as (t' & h' & Hr & Hct & Hl').
    exists t', h'. split.
    { simpl. simpl in Hp. rewrite Hp. simpl. exact Hr. }
    split; [|done]. destruct Hct. simpl in *.
    split; try congruence.
    + rewrite ct_id0. lia.
    + rewrite ct_clicks0, Hc1. lia.
  - rewrite clicks_cons, Hno in Hcl. simpl in Hcl.
    destruct Hs.
    assert (H1 : click_count t1 = 0) by congruence.
    destruct (IH t1 h1 env1 p1 cs H1 Hrest Hcl)
      as (t' & h' & Hr & Hse & Hl').
    exists t', h'. split.
    { change (run ((env, ev) :: rest) (t, h))
        with (handle env ev (t, h) ≫= run rest).
      rewrite Hh. exact Hr. }
    split; [|congruence]. destruct Hse. split; congruence.
Qed.

(** *** The specified table, row by row *)

Lemma ids_from_S (a : Z) (k : nat) :
  ids_from a (S k) = a :: ids_from (a + 1) k.
Proof.
  unfold ids_from. simpl. f_equal; [lia|].
  rewrite <- seq_shift, map_map. apply map_ext. intros i. lia.
Qed.

Lemma spec_rows_length id acc (start : Point) (cs : list (Env num TC * Point)) :
  length (spec_rows id acc start cs) = S (length cs).
Proof.
  revert id acc start. induction cs as [|[env pt] cs IH]; intros; simpl;
    [done|]. by rewrite IH.
Qed.

(** The table is the complete rows followed by exactly one open row. *)
Lemma spec_rows_split (cs : list (Env num TC * Point)) :
  forall id acc (start : Point),
  exists rows,
    spec_rows id acc start cs =
      rows ++ [spec_open_row (id + Z.of_nat (length cs)) (spec_last start cs)] /\
    length rows = length cs /\
    Forall (fun r => complete r = true) rows /\
    map Line_ID rows = ids_from id (length cs).
Proof.
  induction cs as [|[env pt] cs IH]; intros id acc start.
  - exists []. simpl. rewrite Z.add_0_r. by repeat split.
  - destruct (IH (id + 1) (fadd acc (segment_length env start pt)) pt)
      as (rows & Hr & Hl & Hc & Hi).
    exists (spec_complete_row id start pt (segment_length env start pt)
              (fadd acc (segment_length env start pt)) :: rows).
    cbn [spec_rows]. rewrite Hr. repeat split.
    + rewrite spec_last_cons. cbn [length].
      replace (id + Z.of_nat (S (length cs))) with (id + 1 + Z.of_nat (length cs))
        by lia.
      done.
    + simpl. by rewrite Hl.
    + constructor; [done|exact Hc].
    + cbn [map length]. rewrite Hi, ids_from_S. done.
Qed.

Lemma accumulate_cons acc len (lens : list num) :
  accumulate acc (len :: lens) = accumulate (fadd acc len) lens.
Proof. done. Qed.

(** Row [k] of the table, for the segment from click [k] to click
    [k + 1]. *)
Lemma spec_rows_lookup (cs : list (Env num TC * Point)) :
  forall id acc (start : Point) k env' p',
    cs !! k = Some (env', p') ->
    exists pk,
      (start :: map snd cs) !! k = Some pk /\
      spec_lengths start cs !! k = Some (segment_length env' pk p') /\
      spec_rows id acc start cs !! k =
        Some (spec_complete_row (id + Z.of_nat k) pk p'
                (segment_length env' pk p')
                (accumulate acc (take (S k) (spec_lengths start cs)))).
Proof.
  induction cs as [|[env pt] cs IH]; intros id acc start k env' p' Hk;
    [done|].
  destruct k as [|k].
  - injection Hk as -> ->. exists start. simpl.
    rewrite Z.add_0_r. repeat split; done.
  - simpl in Hk.
    destruct (IH (id + 1) (fadd acc (segment_length env start pt)) pt k env' p' Hk)
      as (pk & H1 & H2 & H3).
    exists pk. repeat split; [done|done|].
    cbn [spec_rows spec_lengths]. rewrite lookup_cons, H3.
    replace (id + Z.of_nat (S k)) with (id + 1 + Z.of_nat k) by lia.
    reflexivity.
Qed.

Lemma spec_lengths_length (start : Point) (cs : list (Env num TC * Point)) :
  length (spec_lengths start cs) = length cs.
Proof.
  revert start. induction cs as [|[env pt] cs IH]; intros; simpl; [done|].
  by rewrite IH.
Qed.

(** ** The claims on the session *)

(** C5: a session of n >= 2 accepted clicks, with no double click in
    between, ends with a table of n - 1 complete rows followed by one open
    row; the complete rows carry the ids 1, ..., n - 1 in table order, and
    the id counter stands at n, one increment per accepted click. *)
Theorem session_segment_ids (evs : list (Env num TC * Event))
    (t : Tool) (h : Host num) :
  click_count t = 0 ->
  Forall (fun p => is_finish p.2 = false) evs ->
  (2 <= length (clicks evs))%nat ->
  exists t' h' rows open,
    run evs (t, h) = Ok (t', h') /\
    table_rows t' = rows ++ [open] /\
    length rows = (length (clicks evs) - 1)%nat /\
    Forall (fun r => complete r = true) rows /\
    complete open = false /\
    map Line_ID rows = ids_from 1 (length (clicks evs) - 1) /\
    point_id_counter t' = Z.of_nat (length (clicks evs)).
Proof.
  intros H0 Hnf Hlen.
  destruct (clicks evs) as [|[env1 p1] cs] eqn:Hcl; [simpl in Hlen; lia|].
  destruct (run_session evs t h env1 p1 cs H0 Hnf Hcl) as (t' & h' & Hr & Hse & _).
  destruct (spec_rows_split cs 1 f0 p1) as (rows & Hs & Hl & Hc & Hi).
  exists t', h', rows, (spec_open_row (1 + Z.of_nat (length cs)) (spec_last p1 cs)).
  destruct Hse. cbn [length]. rewrite Nat.sub_succ, Nat.sub_0_r.
  repeat split; try done. by rewrite se_rows0.
Qed.

(** C4: the escape key empties both overlays and leaves the segment
    table, the row index, the id counter, the accumulator, the click
    counter, the open-segment vertex, the measuring flag and the cached
    calculator as they were; the host only gains the notice. *)
Theorem cancel_clears_overlays_only (env : Env num TC) (t : Tool) (h : Host num) :
  exists t' h',
    handle env (KeyPress Key_Escape) (t, h) = Ok (t', h') /\
    main_rb t' = [] /\ temp_rb t' = [] /\
    table_rows t' = table_rows t /\
    n t' = n t /\
    point_id_counter t' = point_id_counter t /\
    var_cum_length_m t' = var_cum_length_m t /\
    click_count t' = click_count t /\
    last_point t' = last_point t /\
    is_measuring t' = is_measuring t /\
    da t' = da t /\
    mapLayers h' = mapLayers h /\
    attributeTables h' = attributeTables h /\
    mapTool h' = mapTool h.
Proof.
  eexists _, _. split; [reflexivity|]. simpl. by repeat split.
Qed.

(** C10: a press of any button but the primary one returns at once; the
    tool, overlays included, and the host are exactly what they were. *)
Theorem press_other_button_unchanged (env : Env num TC) (e : QgsMapMouseEvent)
    (t : Tool) (h : Host num) :
  button e <> LeftButton ->
  canvasPressEvent env e t = Ok t /\
  handle env (CanvasPress e) (t, h) = Ok (t, h).
Proof.
  intros Hb. pose proof (press_other_button env e t Hb) as Hp.
  split; [exact Hp|]. unfold handle. cbn [fst snd]. by rewrite Hp.
Qed.

(** *** Cumulative lengths

    The order on floats enters only here.  What is assumed of it holds of
    IEEE doubles that are not NaN: [<=] is a preorder, adding a
    non-negative number does not decrease, [round] is monotone, and the
    length engine returns non-negative lengths. *)

Section Cumulative.

Variable fle : num -> num -> Prop.
Hypothesis fle_refl : forall a, fle a a.
Hypothesis fle_trans : forall a b c, fle a b -> fle b c -> fle a c.
Hypothesis fadd_nonneg : forall a b, fle f0 b -> fle a (fadd a b).
Hypothesis pyround_mono :
  forall a b d, fle a b -> fle (pyround a d) (pyround b d).
Hypothesis measure_nonneg :
  forall (d : QgsDistanceArea TC) (g : Polyline num), fle f0 (measureLength d g).

Lemma accumulate_le acc (lens : list num) :
  Forall (fle f0) lens -> fle acc (accumulate acc lens).
Proof.
  revert acc. induction lens as [|a l IH]; intros acc Hl; [apply fle_refl|].
  inversion Hl; subst. rewrite accumulate_cons.
  eapply fle_trans; [apply fadd_nonneg; eassumption|by apply IH].
Qed.

Lemma accumulate_take_mono (lens : list num) :
  forall acc i j,
    (i <= j)%nat -> Forall (fle f0) lens ->
    fle (accumulate acc (take i lens)) (accumulate acc (take j lens)).
Proof.
  induction lens as [|a l IH]; intros acc i j Hij Hl.
  - rewrite !take_nil. apply fle_refl.
  - inversion Hl; subst. destruct i as [|i].
    + rewrite take_0. apply accumulate_le. by apply Forall_take.
    + destruct j as [|j]; [lia|]. cbn [take]. rewrite !accumulate_cons.
      apply IH; [lia|done].
Qed.

Lemma spec_lengths_nonneg (start : Point) (cs : list (Env num TC * Point)) :
  Forall (fle f0) (spec_lengths start cs).
Proof.
  revert start. induction cs as [|[env pt] cs IH]; intros; simpl;
    constructor; [apply measure_nonneg|apply IH].
Qed.

(** C6: in a session that started at [p1] and went on with the clicks
    [cs], row k holds, as cumulative length, the one-decimal rounding of the
    accumulator run over the unrounded lengths of segments 1..k (and, as
    length, the one-decimal rounding of the k-th of them); the rows with a
    cumulative length are exactly these, and their cumulative lengths do
    not decrease along the table. *)
Theorem cumulative_length_running_total (evs : list (Env num TC * Event))
    (t : Tool) (h : Host num) env1 p1 cs :
  click_count t = 0 ->
  Forall (fun p => is_finish p.2 = false) evs ->
  clicks evs = (env1, p1) :: cs ->
  exists t' h',
    run evs (t, h) = Ok (t', h') /\
    (forall k len,
        spec_lengths p1 cs !! k = Some len ->
        exists r,
          table_rows t' !! k = Some r /\ complete r = true /\
          length_m r = Some (pyround len 1) /\
          cum_length_m r =
            Some (pyround (accumulate f0 (take (S k) (spec_lengths p1 cs))) 1)) /\
    (forall k r,
        table_rows t' !! k = Some r -> complete r = true ->
        is_Some (spec_lengths p1 cs !! k)) /\
    (forall i j ri rj a b,
        (i <= j)%nat ->
        table_rows t' !! i = Some ri -> table_rows t' !! j = Some rj ->
        cum_length_m ri = Some a -> cum_length_m rj = Some b ->
        fle a b).
Proof.
  intros H0 Hnf Hcl.
  destruct (run_session evs t h env1 p1 cs H0 Hnf Hcl) as (t' & h' & Hr & Hse & _).
  exists t', h'. split; [done|]. destruct Hse as [Hrows _ _ _ _ _ _ _].
  rewrite Hrows.
  assert (Hrow : forall k r,
             spec_rows 1 f0 p1 cs !! k = Some r ->
             (k < length cs)%nat /\
             cum_length_m r =
               Some (pyround (accumulate f0 (take (S k) (spec_lengths p1 cs))) 1) \/
             k = length cs /\ cum_length_m r = None /\ complete r = false).
  { intros k r Hk.
    destruct (cs !! k) as [[env' p']|] eqn:Ek.
    - left. split; [by eapply lookup_lt_Some|].
      destruct (spec_rows_lookup cs 1 f0 p1 k env' p' Ek) as (pk & _ & _ & H3).
      rewrite H3 in Hk. by injection Hk as <-.
    - right. apply lookup_ge_None in Ek.
      pose proof (lookup_lt_Some _ _ _ Hk) as Hlt.
      rewrite spec_rows_length in Hlt.
      assert (k = length cs) as -> by lia. split; [done|].
      destruct (spec_rows_split cs 1 f0 p1) as (rows & Hs & Hl & _ & _).
      rewrite Hs, <- Hl, list_lookup_middle in Hk by done.
      by injection Hk as <-. }
  split; [|split].
  - intros k len Hk.
    pose proof (lookup_lt_Some _ _ _ Hk) as Hlt.
    rewrite spec_lengths_length in Hlt.
    destruct (lookup_lt_is_Some_2 cs k Hlt) as [[env' p'] Ek].
    destruct (spec_rows_lookup cs 1 f0 p1 k env' p' Ek) as (pk & _ & H2 & H3).
    rewrite H2 in Hk. injection Hk as <-.
    eexists. split; [exact H3|]. by repeat split.
  - intros k r Hk Hc. apply lookup_lt_is_Some_2. rewrite spec_lengths_length.
    destruct (Hrow k r Hk) as [[Hlt _]|(_ & _ & Hn)]; [done|congruence].
  - intros i j ri rj a b Hij Hi Hj Ha Hb.
    destruct (Hrow i ri Hi) as [[_ Hci]|(_ & Hn & _)]; [|congruence].
    destruct (Hrow j rj Hj) as [[_ Hcj]|(_ & Hn & _)]; [|congruence].
    rewrite Ha in Hci. rewrite Hb in Hcj.
    injection Hci as ->. injection Hcj as ->.
    apply pyround_mono, accumulate_take_mono; [lia|apply spec_lengths_nonneg].
Qed.

End Cumulative.

(** *** Finalization *)

Lemma mapM_cons_Ok {A B : Type} (f : A -> Result B) a l b bs :
  f a = Ok b -> mapM f l = Ok bs -> mapM f (a :: l) = Ok (b :: bs).
Proof. intros Ha Hl. simpl. rewrite Ha. simpl. by rewrite Hl. Qed.

Lemma mapM_Ok {A B : Type} (f : A -> Result B) (l : list A) :
  Forall (fun a => exists b, f a = Ok b) l ->
  exists bs, mapM f l = Ok bs /\ Forall2 (fun a b => f a = Ok b) l bs.
Proof.
  induction 1 as [|a l [b Hb] _ (bs & Hbs & H2)].
  - exists []. by split.
  - exists (b :: bs). split; [by apply mapM_cons_Ok|by constructor].
Qed.

Lemma build_feature_Ok (crs : QgsCoordinateReferenceSystem) (r : Row num) :
  is_Some (P2x r) -> is_Some (P2y r) -> exists f, build_feature crs r = Ok f.
Proof.
  intros [u Hu] [v Hv]. unfold build_feature. rewrite Hu, Hv. simpl.
  destruct (isGeographic crs); by eexists.
Qed.

(** With at least one complete row, and every complete row holding both
    coordinates of its end vertex, [finish_measurement] returns: it adds one
    layer with one feature per complete row, in order, and resets the
    session. *)
Lemma finish_measurement_output (env : Env num TC) (t : Tool) (h : Host num) :
  let rows := filter (fun r => is_Some (P2x r)) (table_rows t) in
  rows <> [] ->
  Forall (fun r => is_Some (P2y r)) rows ->
  exists feats t' h',
    finish_measurement env (t, h) = Ok (t', h') /\
    Forall2 (fun r f => build_feature (destinationCrs env) r = Ok f) rows feats /\
    mapLayers h' = mapLayers h ++ [measurement_layer env feats] /\
    attributeTables h' = attributeTables h ++ [measurement_layer env feats] /\
    table_rows t' = [] /\ n t' = 0 /\ point_id_counter t' = 0 /\
    var_cum_length_m t' = f0 /\ click_count t' = 0 /\
    last_point t' = None /\ is_measuring t' = false /\ main_rb t' = [].
Proof.
  intros rows Hne Hy.
  destruct (mapM_Ok (build_feature (destinationCrs env)) rows) as (feats & Hm & H2).
  { apply Forall_forall. intros r Hr.
    apply build_feature_Ok.
    - by apply list_elem_of_filter in Hr as [? _].
    - rewrite Forall_forall in Hy. by apply Hy. }
  exists feats. unfold finish_measurement. cbn [set_is_measuring table_rows].
  fold rows.
  destruct (Z.of_nat (length rows) =? 0) eqn:E.
  { apply Z.eqb_eq in E. destruct rows; [done|simpl in E; lia]. }
  rewrite Hm. eexists _, _. split; [reflexivity|]. simpl. by repeat split.
Qed.

Lemma filter_complete_split (rows : list (Row num)) (open : Row num) :
  Forall (fun r => complete r = true) rows -> complete open = false ->
  filter (fun r => is_Some (P2x r)) (rows ++ [open]) = rows.
Proof.
  intros Hc Ho. induction Hc as [|r rows Hr _ IH]; simpl.
  - rewrite filter_cons_False, filter_nil; [done|].
    unfold complete in Ho. destruct (P2x open); [done|]. by intros [? ?].
  - rewrite filter_cons_True, IH; [done|].
    unfold complete in Hr. destruct (P2x r); [by eexists|done].
Qed.

(** C8: [finish_measurement] writes, as Start and Stop of every complete
    row, the latitude and longitude of the row's stored end points with four
    decimals: the stored coordinates themselves when the canvas reference
    system is geographic, and their transforms to EPSG:4326 when it is
    not. *)
Theorem finish_start_stop_text (env : Env num TC) (t : Tool) (h : Host num) :
  let crs := destinationCrs env in
  let rows := filter (fun r => is_Some (P2x r)) (table_rows t) in
  rows <> [] ->
  Forall (fun r => is_Some (P2y r)) rows ->
  exists feats t' h',
    finish_measurement env (t, h) = Ok (t', h') /\
    mapLayers h' = mapLayers h ++ [measurement_layer env feats] /\
    length feats = length rows /\
    forall (k : nat) r,
      rows !! k = Some r ->
      exists f x2 y2,
        feats !! k = Some f /\ P2x r = Some x2 /\ P2y r = Some y2 /\
        let p1 := {| x := P1x r; y := P1y r |} in
        let p2 := {| x := x2; y := y2 |} in
        (isGeographic crs = true ->
         attributes f !! 1%nat = Some (VString (lat_lon_text p1)) /\
         attributes f !! 2%nat = Some (VString (lat_lon_text p2))) /\
        (isGeographic crs = false ->
         attributes f !! 1%nat =
           Some (VString (lat_lon_text (transform crs wgs84_crs p1))) /\
         attributes f !! 2%nat =
           Some (VString (lat_lon_text (transform crs wgs84_crs p2)))).
Proof.
  intros crs rows Hne Hy.
  destruct (finish_measurement_output env t h Hne Hy)
    as (feats & t' & h' & Hf & H2 & Hl & _).
  exists feats, t', h'. split; [done|]. split; [done|].
  split; [symmetry; by eapply Forall2_length|].
  intros k r Hk.
  destruct (Forall2_lookup_l _ _ _ _ _ H2 Hk) as (f & Hfk & Hb).
  assert (Hx : is_Some (P2x r)).
  { apply list_elem_of_lookup_2 in Hk. by apply list_elem_of_filter in Hk as [? _]. }
  assert (Hy' : is_Some (P2y r)) by by eapply Forall_lookup_1 in Hy.
  destruct Hx as [x2 Hx], Hy' as [y2 Hy'].
  exists f, x2, y2. split; [done|]. split; [done|]. split; [done|].
  unfold build_feature in Hb. rewrite Hx, Hy' in Hb.
  fold crs in Hb. simpl in Hb.
  split; intros Hg; rewrite Hg in Hb; by injection Hb as <-.
Qed.

(** The complete rows of a session's table have both end coordinates. *)
Lemma spec_rows_complete (cs : list (Env num TC * Point)) id acc (start : Point) :
  exists rows open,
    spec_rows id acc start cs = rows ++ [open] /\
    filter (fun r => is_Some (P2x r)) (spec_rows id acc start cs) = rows /\
    length rows = length cs /\
    Forall (fun r => is_Some (P2y r)) rows.
Proof.
  destruct (spec_rows_split cs id acc start) as (rows & Hs & Hl & Hc & _).
  exists rows, (spec_open_row (id + Z.of_nat (length cs)) (spec_last start cs)).
  split; [done|]. split; [rewrite Hs; by apply filter_complete_split|].
  split; [done|].
  apply Forall_lookup. intros k r Hk.
  pose proof (lookup_lt_Some _ _ _ Hk) as Hlt. rewrite Hl in Hlt.
  destruct (lookup_lt_is_Some_2 cs k Hlt) as [[env' p'] Ek].
  destruct (spec_rows_lookup cs id acc start k env' p' Ek) as (pk & _ & _ & H3).
  rewrite Hs, lookup_app_l, Hk in H3 by lia. by injection H3 as ->.
Qed.

(** C7: for segment k of a session, with unrounded length [len] and
    accumulator [acc] after it, the row stores [round(len, 1)],
    [round(len / 1852.0, 2)], [round(acc, 1)] and [round(acc / 1852.0, 2)],
    each rounded on its own from the unrounded value, and the double click
    that ends the session emits exactly these stored values in feature k. *)
Theorem stored_lengths_rounded_and_emitted (evs : list (Env num TC * Event))
    (t : Tool) (h : Host num) env1 p1 cs (envF : Env num TC)
    (e : QgsMapMouseEvent) :
  click_count t = 0 ->
  Forall (fun p => is_finish p.2 = false) evs ->
  clicks evs = (env1, p1) :: cs ->
  cs <> [] ->
  exists t1 h1 t' h' feats,
    run evs (t, h) = Ok (t1, h1) /\
    handle envF (CanvasDoubleClick e) (t1, h1) = Ok (t', h') /\
    mapLayers h' = mapLayers h1 ++ [measurement_layer envF feats] /\
    length feats = length cs /\
    forall (k : nat) len,
      spec_lengths p1 cs !! k = Some len ->
      let acc := accumulate f0 (take (S k) (spec_lengths p1 cs)) in
      exists r f start stop,
        table_rows t1 !! k = Some r /\
        length_m r = Some (pyround len 1) /\
        length_nm r = Some (pyround (fdiv len f1852) 2) /\
        cum_length_m r = Some (pyround acc 1) /\
        cum_length_nm r = Some (pyround (fdiv acc f1852) 2) /\
        feats !! k = Some f /\
        attributes f =
          [ VInt (Line_ID r); VString start; VString stop;
            VDouble (pyround len 1); VDouble (pyround (fdiv len f1852) 2);
            VDouble (pyround acc 1); VDouble (pyround (fdiv acc f1852) 2) ].
Proof.
  intros H0 Hnf Hcl Hcs.
  destruct (run_session evs t h env1 p1 cs H0 Hnf Hcl) as (t1 & h1 & Hr & Hse & _).
  destruct Hse as [Hrows _ _ _ _ _ Hm _].
  destruct (spec_rows_complete cs 1 f0 p1) as (rows & open & Hs & Hfl & Hl & Hy).
  assert (Hne : filter (fun r => is_Some (P2x r)) (table_rows t1) <> []).
  { rewrite Hrows, Hfl. destruct rows; [|done]. destruct cs; done. }
  assert (Hy1 : Forall (fun r => is_Some (P2y r))
                  (filter (fun r => is_Some (P2x r)) (table_rows (set_temp_rb [] t1)))).
  { cbn [set_temp_rb table_rows]. by rewrite Hrows, Hfl. }
  destruct (finish_measurement_output envF (set_temp_rb [] t1) h1 Hne Hy1)
    as (feats & t' & h' & Hf & H2 & Hlay & _).
  cbn [set_temp_rb table_rows] in H2. rewrite Hrows, Hfl in H2.
  exists t1, h1, t', h', feats. split; [done|]. split.
  { unfold handle, canvasDoubleClickEvent. by rewrite Hm. }
  split; [done|]. split; [rewrite <- Hl; symmetry; by eapply Forall2_length|].
  intros k len Hk acc.
  pose proof (lookup_lt_Some _ _ _ Hk) as Hlt.
  rewrite spec_lengths_length in Hlt.
  destruct (lookup_lt_is_Some_2 cs k Hlt) as [[env' p'] Ek].
  destruct (spec_rows_lookup cs 1 f0 p1 k env' p' Ek) as (pk & _ & H2' & H3).
  rewrite H2' in Hk. injection Hk as <-.
  assert (Hrk : rows !! k = Some (spec_complete_row (1 + Z.of_nat k) pk p'
                                    (segment_length env' pk p') acc)).
  { rewrite Hs, lookup_app_l in H3 by lia. exact H3. }
  destruct (Forall2_lookup_l _ _ _ _ _ H2 Hrk) as (f & Hfk & Hb).
  unfold build_feature in Hb. simpl in Hb.
  rewrite Hrows.
  destruct (isGeographic (destinationCrs envF)); injection Hb as <-;
    (eexists _, _, _, _; split; [exact H3|]; by repeat split).
Qed.

(** C9, as the code has it: every row stores its two vertices rounded to
    six decimals, once, from the clicked points, and the length of segment k
    is measured between these stored, rounded vertices (with the calculator
    of the host at the closing click) and only then rounded; the clicked
    point itself survives only as [last_point]. *)
Theorem segment_measured_between_stored_vertices
    (evs : list (Env num TC * Event)) (t : Tool) (h : Host num) env1 p1 cs :
  click_count t = 0 ->
  Forall (fun p => is_finish p.2 = false) evs ->
  clicks evs = (env1, p1) :: cs ->
  exists t' h',
    run evs (t, h) = Ok (t', h') /\
    last_point t' = Some (spec_last p1 cs) /\
    forall (k : nat) env' p',
      cs !! k = Some (env', p') ->
      exists pk r,
        (p1 :: map snd cs) !! k = Some pk /\
        table_rows t' !! k = Some r /\
        P1x r = pyround (x pk) 6 /\ P1y r = pyround (y pk) 6 /\
        P2x r = Some (pyround (x p') 6) /\ P2y r = Some (pyround (y p') 6) /\
        length_m r =
          Some (pyround
                  (measureLength (distance_area env')
                     [ {| x := pyround (x pk) 6; y := pyround (y pk) 6 |};
                       {| x := pyround (x p') 6; y := pyround (y p') 6 |} ])
                  1).
Proof.
  intros H0 Hnf Hcl.
  destruct (run_session evs t h env1 p1 cs H0 Hnf Hcl) as (t' & h' & Hr & Hse & _).
  destruct Hse as [Hrows _ _ _ Hlast _ _ _].
  exists t', h'. split; [done|]. split; [done|].
  intros k env' p' Hk.
  destruct (spec_rows_lookup cs 1 f0 p1 k env' p' Hk) as (pk & H1 & _ & H3).
  eexists pk, _. rewrite Hrows. split; [done|]. split; [exact H3|].
  by repeat split.
Qed.

(** *** The plugin's toggle *)

(** C3, as the code has it: toggling while the tool is the canvas' map
    tool unsets it and unchecks the action; nothing is finalized and the
    tool object is kept with all of its state, and the next toggle puts the
    very same tool back on the canvas. *)
Theorem toggle_active_keeps_tool (env : Env num TC)
    (p : AdvancedMeasureTool num TC) (h : Host num) (t : Tool) :
  tool p = Some t ->
  mapTool h = MeasureTool ->
  toggle_tool env (p, h) = ({| tool := Some t |}, setMapTool NoMapTool false h) /\
  toggle_tool env (toggle_tool env (p, h))
    = ({| tool := Some t |}, setMapTool MeasureTool true h) /\
  mapLayers (toggle_tool env (p, h)).2 = mapLayers h.
Proof.
  intros Ht Hm. unfold toggle_tool. rewrite Ht, Hm. simpl. done.
Qed.

(** *** Supporting facts for the two defects *)

(** Without a complete row [finish_measurement] returns before its reset:
    only the measuring flag changes. *)
Lemma finish_measurement_early_return (env : Env num TC) (t : Tool) (h : Host num) :
  filter (fun r => is_Some (P2x r)) (table_rows t) = [] ->
  finish_measurement env (t, h) = Ok (set_is_measuring false t, h).
Proof.
  intros Hf. unfold finish_measurement. cbn [set_is_measuring table_rows].
  by rewrite Hf.
Qed.

(** The preview measures with the calculator stored in the tool, whatever
    the reference system of the canvas is when the pointer moves. *)
Lemma canvasMoveEvent_measures_with_stored_da (env : Env num TC) e
    (t : Tool) (h : Host num) lp :
  is_measuring t = true -> last_point t = Some lp ->
  let len := measureLength (da t) [lp; toMapCoordinates env (pos e)] in
  messageBar (canvasMoveEvent env e (t, h)).2 =
    [ {| msg_title := "Measure";
         msg_text := preview_text len (fdiv len f1852)
                       (fadd (var_cum_length_m t) len)
                       (fdiv (fadd (var_cum_length_m t) len) f1852);
         msg_level := Info; msg_duration := 5 |} ].
Proof.
  intros Hm Hl. unfold canvasMoveEvent. rewrite Hm, Hl. reflexivity.
Qed.

End Session.

(** ** The exact instance satisfies what was assumed of the order *)

Lemma pow10_pos (d : Z) : (0 < pow10 d)%Q.
Proof.
  unfold pow10. destruct (0 <=? d) eqn:E.
  - apply Z.leb_le in E. change (0%Q) with (inject_Z 0).
    rewrite <- Zlt_Qlt. by apply Z.pow_pos_nonneg.
  - apply Z.leb_gt in E. apply Qinv_lt_0_compat.
    change (0%Q) with (inject_Z 0). rewrite <- Zlt_Qlt.
    apply Z.pow_pos_nonneg; lia.
Qed.

Lemma round_half_even_bounds (q : Q) :
  Qfloor q <= round_half_even q <= Qfloor q + 1.
Proof.
  unfold round_half_even.
  destruct (Qcompare (q - inject_Z (Qfloor q)) (1 # 2));
    [destruct (Z.even (Qfloor q))| |]; lia.
Qed.

Lemma round_half_even_mono (a b : Q) :
  (a <= b)%Q -> round_half_even a <= round_half_even b.
Proof.
  intros Hab. pose proof (Qfloor_resp_le _ _ Hab) as Hf.
  destruct (Z.eq_dec (Qfloor a) (Qfloor b)) as [E|E].
  - unfold round_half_even. rewrite <- E.
    destruct (Qcompare_spec (a - inject_Z (Qfloor a)) (1 # 2)) as [Ha|Ha|Ha];
      destruct (Qcompare_spec (b - inject_Z (Qfloor a)) (1 # 2)) as [Hb|Hb|Hb];
      try (destruct (Z.even (Qfloor a))); try lia; exfalso;
      clear E Hf; generalize dependent (inject_Z (Qfloor a)); intros; lra.
  - pose proof (round_half_even_bounds a). pose proof (round_half_even_bounds b).
    lia.
Qed.

Lemma q_round_mono (a b : Q) (d : Z) :
  (a <= b)%Q -> (q_round a d <= q_round b d)%Q.
Proof.
  intros Hab. unfold q_round. rewrite !Qred_correct.
  pose proof (pow10_pos d) as Hp.
  apply Qmult_le_compat_r; [|apply Qlt_le_weak, Qinv_lt_0_compat, Hp].
  rewrite <- Zle_Qle. apply round_half_even_mono.
  apply Qmult_le_compat_r; [done|by apply Qlt_le_weak].
Qed.

Lemma q_add_nonneg (a b : Q) : (f0 <= b)%Q -> (a <= fadd a b)%Q.
Proof.
  change ((0 <= b)%Q -> (a <= Qred (a + b))%Q).
  intros Hb. rewrite Qred_correct. lra.
Qed.

Lemma legs_nonneg (g : Polyline Q) : (0 <= legs g)%Q.
Proof.
  induction g as [|p [|q g] IH]; try apply Qle_refl.
  change (legs (p :: q :: g))
    with (Qabs (x q - x p) + Qabs (y q - y p) + legs (q :: g))%Q.
  pose proof (Qabs_nonneg (x q - x p)). pose proof (Qabs_nonneg (y q - y p)).
  generalize dependent (legs (q :: g)).
  generalize dependent (Qabs (x q - x p)).
  generalize dependent (Qabs (y q - y p)). intros. lra.
Qed.

Lemma q_measure_nonneg (d : QgsDistanceArea unit) (g : Polyline Q) :
  (f0 <= measureLength d g)%Q.
Proof.
  change (0 <= Qred (metres_per_unit (sourceCrs d) * legs g))%Q.
  rewrite Qred_correct. apply Qmult_le_0_compat; [|apply legs_nonneg].
  unfold metres_per_unit. by destruct (isGeographic (sourceCrs d)).
Qed.

(** ** The claims at concrete sessions *)

(** A session on the exact instance, end to end: one feature, with the
    two end points in latitude and longitude and the lengths in metres and
    nautical miles; the session is reset. *)
Example one_degree_north_layer :
  exists t' h',
    run one_degree_north (MeasureMapTool_init env_utm, empty_host) = Ok (t', h') /\
    fresh_session t' /\
    map layer_features (mapLayers h') =
      [ [ {| geometry := [ {| x := 500000 # 1; y := 0 # 1 |};
                           {| x := 500000 # 1; y := 111320 # 1 |} ];
             attributes :=
               [ VInt 1; VString "0.0000, 4.4916"; VString "1.0000, 4.4916";
                 VDouble (111320 # 1); VDouble (6011 # 100);
                 VDouble (111320 # 1); VDouble (6011 # 100) ] |} ] ].
Proof.
  eexists _, _. split; [vm_compute; reflexivity|]. by repeat split.
Qed.

Lemma session_segment_ids_witness :
  exists t' h' rows open,
    run three_clicks (MeasureMapTool_init env_geo, empty_host) = Ok (t', h') /\
    table_rows t' = rows ++ [open] /\
    length rows = 2%nat /\
    Forall (fun r => complete r = true) rows /\
    complete open = false /\
    map Line_ID rows = [1; 2] /\
    point_id_counter t' = 3.
Proof.
  apply (session_segment_ids three_clicks (MeasureMapTool_init env_geo) empty_host).
  - reflexivity.
  - repeat constructor.
  - vm_compute. lia.
Defined.

Lemma press_other_button_unchanged_witness :
  canvasPressEvent env_geo {| button := RightButton; pos := (7, 7) |} measuring_tool
    = Ok measuring_tool /\
  handle env_geo (right_click 7 7) (measuring_tool, empty_host)
    = Ok (measuring_tool, empty_host).
Proof.
  apply (press_other_button_unchanged env_geo
           {| button := RightButton; pos := (7, 7) |} measuring_tool empty_host).
  discriminate.
Defined.

Lemma cumulative_length_running_total_witness :
  exists t' h',
    run three_clicks (MeasureMapTool_init env_geo, empty_host) = Ok (t', h') /\
    forall i j ri rj a b,
      (i <= j)%nat ->
      table_rows t' !! i = Some ri -> table_rows t' !! j = Some rj ->
      cum_length_m ri = Some a -> cum_length_m rj = Some b ->
      Qle a b.
Proof.
  destruct (cumulative_length_running_total Qle Qle_refl Qle_trans
              q_add_nonneg q_round_mono q_measure_nonneg
              three_clicks (MeasureMapTool_init env_geo) empty_host
              env_geo (fine_grid (0, 0))
              [(env_geo, fine_grid (14, 0)); (env_geo, fine_grid (14, 25))]
              eq_refl
              ltac:(repeat constructor)
              eq_refl)
    as (t' & h' & Hr & _ & _ & Hm).
  exists t', h'. split; [exact Hr|exact Hm].
Defined.

Lemma stored_lengths_rounded_and_emitted_witness :
  exists t1 h1 t' h' feats,
    run three_clicks (MeasureMapTool_init env_geo, empty_host) = Ok (t1, h1) /\
    handle env_geo (double_click 14 25) (t1, h1) = Ok (t', h') /\
    mapLayers h' = mapLayers h1 ++ [measurement_layer env_geo feats] /\
    length feats = 2%nat.
Proof.
  destruct (stored_lengths_rounded_and_emitted
              three_clicks (MeasureMapTool_init env_geo) empty_host
              env_geo (fine_grid (0, 0))
              [(env_geo, fine_grid (14, 0)); (env_geo, fine_grid (14, 25))]
              env_geo {| button := LeftButton; pos := (14, 25) |}
              eq_refl
              ltac:(repeat constructor)
              eq_refl
              ltac:(discriminate))
    as (t1 & h1 & t' & h' & feats & Hr & Hh & Hl & Hn & _).
  exists t1, h1, t', h', feats. repeat split; assumption.
Defined.

Lemma finish_start_stop_text_witness :
  exists feats t' h',
    finish_measurement env_geo (measuring_tool, empty_host) = Ok (t', h') /\
    mapLayers h' = [measurement_layer env_geo feats] /\
    length feats = 2%nat.
Proof.
  destruct (finish_start_stop_text env_geo measuring_tool empty_host)
    as (feats & t' & h' & Hf & Hl & Hn & _).
  - vm_compute. discriminate.
  - vm_compute. repeat constructor; eexists; reflexivity.
  - exists feats, t', h'. repeat split; assumption.
Defined.

Lemma segment_measured_between_stored_vertices_witness :
  exists t' h',
    run three_clicks (MeasureMapTool_init env_geo, empty_host) = Ok (t', h') /\
    last_point t' = Some (fine_grid (14, 25)).
Proof.
  destruct (segment_measured_between_stored_vertices
              three_clicks (MeasureMapTool_init env_geo) empty_host
              env_geo (fine_grid (0, 0))
              [(env_geo, fine_grid (14, 0)); (env_geo, fine_grid (14, 25))]
              eq_refl
              ltac:(repeat constructor)
              eq_refl)
    as (t' & h' & Hr & Hl & _).
  exists t', h'. split; [exact Hr|exact Hl].
Defined.

Lemma toggle_active_keeps_tool_witness :
  toggle_tool env_geo measuring_plugin
    = ({| tool := Some measuring_tool |}, setMapTool NoMapTool false empty_host) /\
  toggle_tool env_geo (toggle_tool env_geo measuring_plugin)
    = ({| tool := Some measuring_tool |}, setMapTool MeasureTool true empty_host) /\
  mapLayers (toggle_tool env_geo measuring_plugin).2 = mapLayers empty_host.
Proof.
  apply (toggle_active_keeps_tool env_geo
           {| tool := Some measuring_tool |} empty_host measuring_tool);
    reflexivity.
Defined.

(** C9 as stated fails: two clicks 1.4 millionths of a degree apart are
    stored as one millionth apart, and the stored length is the rounding of
    0.11 m, not of the 0.16 m between the clicked points. *)
Lemma length_not_measured_between_raw_clicks :
  first_segment_measured_between stored env_geo env_geo (0, 0) (14, 0)
    (MeasureMapTool_init env_geo, empty_host) /\
  ~ first_segment_measured_between (fun p => p) env_geo env_geo (0, 0) (14, 0)
      (MeasureMapTool_init env_geo, empty_host).
Proof.
  split.
  - eexists _, _, _. split; [vm_compute; reflexivity|].
    split; [reflexivity|]. vm_compute. reflexivity.
  - intros (t' & h' & r & Hr & Hk & Hl).
    vm_compute in Hr. injection Hr as <- <-.
    vm_compute in Hk. injection Hk as <-.
    vm_compute in Hl. discriminate.
Qed.

(** C3 as stated fails: toggling off in the middle of a session keeps the
    three rows of the table, and so does the activation after it. *)
Lemma toggle_keeps_session_in_progress :
  ~ toggle_discards_session env_geo measuring_plugin /\
  ~ reactivation_is_fresh env_geo measuring_plugin.
Proof.
  split; intros H; destruct (H measuring_tool eq_refl) as (Hrows & _);
    vm_compute in Hrows; discriminate.
Qed.

(** C1 at a double click made as the first gesture: no layer is created,
    and the open row, the click counter, the id counter and the open-segment
    vertex all survive; clicks and a double click made afterwards extend the
    old table and still create no layer. *)
Theorem finish_without_complete_segment_skips_reset :
  exists t' h',
    run double_click_first (MeasureMapTool_init env_geo, empty_host) = Ok (t', h') /\
    mapLayers h' = [] /\
    is_measuring t' = false /\
    table_rows t' = [spec_open_row 1 (fine_grid (0, 0))] /\
    click_count t' = 1 /\
    point_id_counter t' = 1 /\
    last_point t' = Some (fine_grid (0, 0)) /\
    ~ fresh_session t' /\
    exists t2 h2,
      run double_click_first_then_measure (MeasureMapTool_init env_geo, empty_host)
        = Ok (t2, h2) /\
      mapLayers h2 = [] /\ length (table_rows t2) = 3%nat /\ click_count t2 = 3.
Proof.
  eexists _, _. split; [vm_compute; reflexivity|].
  repeat split; try reflexivity.
  - intros (Hrows & _). discriminate.
  - eexists _, _. split; [vm_compute; reflexivity|]. by repeat split.
Qed.

(** C2 at a preview after the canvas went from degrees to UTM: the
    status text is computed with the calculator built with the tool, in
    degrees, while the committed segment between the same two points is
    measured with a calculator made at the click, in metres. *)
Theorem preview_measures_with_construction_time_calculator :
  let lp := unit_grid (0, 0) in
  let cur := unit_grid (3, 4) in
  let stale := measureLength (distance_area env_deg) [lp; cur] in
  let fresh := measureLength (distance_area env_utm) [lp; cur] in
  exists t' h' m r,
    run after_crs_change (MeasureMapTool_init env_deg, empty_host) = Ok (t', h') /\
    sourceCrs (da t') = wgs84_crs /\ destinationCrs env_utm = utm32 /\
    messageBar h' = [m] /\
    msg_text m = preview_text stale (fdiv stale f1852)
                   (fadd f0 stale) (fdiv (fadd f0 stale) f1852) /\
    msg_text m = "Segment: 779240.0 m (420.76 nm) | Total: 779240.0 m (420.76 nm)" /\
    msg_text m <> preview_text fresh (fdiv fresh f1852)
                    (fadd f0 fresh) (fdiv (fadd f0 fresh) f1852) /\
    table_rows t' !! 0%nat = Some r /\
    length_m r = Some (pyround fresh 1) /\
    length_m r = Some (7 # 1).
Proof.
  intros lp cur stale fresh.
  eexists _, _, _, _. split; [vm_compute; reflexivity|].
  split; [reflexivity|]. split; [reflexivity|]. split; [reflexivity|].
  split; [vm_compute; reflexivity|]. split; [reflexivity|].
  split; [vm_compute; discriminate|].
  split; [reflexivity|]. split; vm_compute; reflexivity.
Qed.

(** * The life cycle of the tool *)

Section Lifecycle.

Context {num : Type} {F : PyFloat num} {TC : Type} {G : Geodesy num TC}.

Abbreviation Tool' := (MeasureMapTool num TC).
Abbreviation Point' := (QgsPointXY num).

(** ** The calculator stored in the tool *)

Lemma calculate_segment_keeps_da (env : Env num TC) idx (t t' : Tool') :
  calculate_segment env idx t = Ok t' -> da t' = da t.
Proof.
  unfold calculate_segment.
  destruct (py_getitem (table_rows t) idx) as [r|]; simpl; [|discriminate].
  destruct (make_point (P2x r) (P2y r)) as [p2|]; simpl; [|discriminate].
  match goal with
  | |- context [py_update ?l ?i ?f] => destruct (py_update l i f)
  end; simpl; [|discriminate].
  by intros [= <-].
Qed.

Lemma press_keeps_da (env : Env num TC) e (t t' : Tool') :
  canvasPressEvent env e t = Ok t' -> da t' = da t.
Proof.
  unfold canvasPressEvent.
  destruct (negb (button_eqb (button e) LeftButton)); [by intros [= <-]|].
  cbn [set_click_count click_count].
  destruct (click_count t + 1 =? 1); [by intros [= <-]|].
  cbn [table_rows n].
  match goal with
  | |- context [py_update ?l ?i ?f] => destruct (py_update l i f) as [rows1|]
  end; simpl; [|discriminate].
  match goal with
  | |- context [py_update ?l ?i ?f] => destruct (py_update l i f) as [rows2|]
  end; simpl; [|discriminate].
  match goal with
  | |- context [calculate_segment ?a ?b ?c] =>
      destruct (calculate_segment a b c) as [t1|] eqn:E
  end; simpl; [|discriminate].
  apply calculate_segment_keeps_da in E. simpl in E.
  destruct (last_point t1); simpl; [|discriminate].
  intros [= <-]. simpl. exact E.
Qed.

Lemma finish_keeps_da (env : Env num TC) (t t' : Tool') (h h' : Host num) :
  finish_measurement env (t, h) = Ok (t', h') -> da t' = da t.
Proof.
  unfold finish_measurement. cbn [set_is_measuring table_rows].
  destruct (Z.of_nat _ =? 0); [by intros [= <- <-]|].
  destruct (mapM _ _); simpl; [|discriminate]. by intros [= <- <-].
Qed.

Lemma handle_keeps_da (env : Env num TC) ev (t t' : Tool') (h h' : Host num) :
  handle env ev (t, h) = Ok (t', h') -> da t' = da t.
Proof.
  destruct ev as [e|e|e|k]; unfold handle.
  - cbn [fst snd]. destruct (canvasPressEvent env e t) as [t1|] eqn:E;
      simpl; [|discriminate].
    intros [= <- <-]. by eapply press_keeps_da.
  - pose proof (move_same_session env e t h) as [Hs _].
    destruct (canvasMoveEvent env e (t, h)) as [t1 h1].
    intros [= <- <-]. by destruct Hs.
  - unfold canvasDoubleClickEvent.
    destruct (negb (is_measuring t)); [by intros [= <- <-]|].
    intros H. by apply finish_keeps_da in H.
  - pose proof (key_same_session k t h) as [Hs _].
    destruct (keyPressEvent k (t, h)) as [t1 h1].
    intros [= <- <-]. by destruct Hs.
Qed.

(** X3: no handler ever replaces the calculator built with the tool: after any
    event stream that is handled, double clicks included, [self.da] is the
    object of construction time. *)
Theorem calculator_never_updated (evs : list (Env num TC * Event))
    (t t' : Tool') (h h' : Host num) :
  run evs (t, h) = Ok (t', h') -> da t' = da t.
Proof.
  revert t h. induction evs as [|[env ev] rest IH]; intros t h.
  - by intros [= <- <-].
  - cbn [run]. destruct (handle env ev (t, h)) as [[t1 h1]|] eqn:E;
      simpl; [|discriminate].
    intros Hr. rewrite (IH _ _ Hr). by eapply handle_keeps_da.
Qed.

(** ** Well-formed states *)

Lemma ids_from_snoc (a : Z) (k : nat) :
  ids_from a (S k) = ids_from a k ++ [a + Z.of_nat k].
Proof.
  unfold ids_from. rewrite seq_S, map_app. reflexivity.
Qed.

Lemma idle_same_session (t t' : Tool') :
  same_session t t' -> Idle t -> Idle t'.
Proof. intros [] []. split; congruence. Qed.

Lemma measuring_same_session pre (start : Point') (t t' : Tool') :
  same_session t t' -> Measuring pre start t -> Measuring pre start t'.
Proof.
  intros Hs [Hop Hc Hf Hi]. pose proof Hs as [? ? Hacc ? Hcl ? ? ?].
  split; try done.
  - rewrite Hacc. by eapply open_same_session.
  - congruence.
Qed.

Lemma full_rows_complete (pre : list (Row num)) :
  Forall full_row pre -> Forall (fun r => complete r = true) pre.
Proof.
  intros H. eapply Forall_impl; [exact H|].
  intros r [[u Hu] _]. unfold complete. by rewrite Hu.
Qed.

Lemma init_idle (env : Env num TC) : Idle (MeasureMapTool_init env).
Proof. by split. Qed.

(** Every event is handled in a well-formed state, and leaves one. *)
Lemma handle_wellformed (env : Env num TC) (ev : Event) (t : Tool') (h : Host num) :
  WellFormed t ->
  exists t' h', handle env ev (t, h) = Ok (t', h') /\ WellFormed t'.
Proof.
  intros Hwf.
  destruct ev as [[b p]|e|e|k].
  - (* press *)
    destruct b.
    2,3: exists t, h; split; [reflexivity|exact Hwf].
    destruct Hwf as [Hid|(pre & start & Hm)].
    + destruct Hid as [? ? ? ? ? Hc ?].
      destruct (press_first env p t Hc) as (t1 & Hp & Hop & Hc1 & _).
      exists t1, h. split; [unfold handle; cbn [fst snd]; by rewrite Hp|].
      right. exists [], (toMapCoordinates env p).
      pose proof Hop as [? ? Hacc ? ? ?].
      split; [by rewrite Hacc|done|constructor|done].
    + destruct Hm as [Hop Hc Hf Hi].
      destruct (press_next env p t _ _ _ _ Hop) as (t1 & Hp & Hop1 & Hc1 & _).
      exists t1, h. split; [unfold handle; cbn [fst snd]; by rewrite Hp|].
      right. eexists (pre ++ [_]), (toMapCoordinates env p).
      pose proof Hop1 as [_ _ Hacc _ _ _].
      split.
      * rewrite Hacc, length_app. cbn [length].
        replace (Z.of_nat (S (length pre + 1)))
          with (Z.of_nat (S (length pre)) + 1) by lia.
        exact Hop1.
      * rewrite Hc1, Hc, length_app. simpl. lia.
      * apply Forall_app. split; [done|].
        constructor; [|constructor]. split; by eexists.
      * rewrite map_app, length_app, Hi. cbn [length map Line_ID spec_complete_row].
        rewrite Nat.add_1_r, ids_from_snoc. do 2 f_equal. lia.
  - (* move *)
    pose proof (move_same_session env e t h) as [Hs _].
    destruct (canvasMoveEvent env e (t, h)) as [t1 h1] eqn:E.
    exists t1, h1. split; [unfold handle; by rewrite E|].
    destruct Hwf as [Hid|(pre & start & Hm)].
    + left. by eapply idle_same_session.
    + right. exists pre, start. by eapply measuring_same_session.
  - (* double click *)
    unfold handle, canvasDoubleClickEvent.
    destruct (is_measuring t) eqn:Em; cbn [negb]; [|by exists t, h].
    destruct Hwf as [Hid|(pre & start & Hm)].
    { destruct Hid. congruence. }
    pose proof Hm as [Hop Hc Hf Hi]. pose proof Hop as [Hrows _ _ _ _ _].
    assert (Hfl : filter (fun r => is_Some (P2x r)) (table_rows (set_temp_rb [] t))
                  = pre).
    { cbn [set_temp_rb table_rows]. rewrite Hrows.
      apply filter_complete_split; [by apply full_rows_complete|done]. }
    destruct pre as [|r0 pre].
    + rewrite finish_measurement_early_return by done.
      eexists _, _. split; [reflexivity|].
      right. exists [], start.
      destruct Hop. by repeat split.
    + destruct (finish_measurement_output env (set_temp_rb [] t) h)
        as (feats & t' & h' & Hfin & _ & _ & _ & ? & ? & ? & ? & ? & ? & ? & _).
      * by rewrite Hfl.
      * rewrite Hfl. eapply Forall_impl; [exact Hf|]. by intros r [_ ?].
      * exists t', h'. split; [done|]. left. by split.
  - (* key *)
    pose proof (key_same_session k t h) as [Hs _].
    destruct (keyPressEvent k (t, h)) as [t1 h1] eqn:E.
    exists t1, h1. split; [unfold handle; by rewrite E|].
    destruct Hwf as [Hid|(pre & start & Hm)].
    + left. by eapply idle_same_session.
    + right. exists pre, start. by eapply measuring_same_session.
Qed.

Lemma run_wellformed (evs : list (Env num TC * Event)) :
  forall (t : Tool') (h : Host num),
    WellFormed t ->
    exists t' h', run evs (t, h) = Ok (t', h') /\ WellFormed t'.
Proof.
  induction evs as [|[env ev] rest IH]; intros t h Hwf.
  - by exists t, h.
  - destruct (handle_wellformed env ev t h Hwf) as (t1 & h1 & Hh & Hwf1).
    destruct (IH t1 h1 Hwf1) as (t' & h' & Hr & Hwf').
    exists t', h'. split; [|done]. cbn [run]. rewrite Hh. exact Hr.
Qed.

(** X1: a tool that has just been built handles every stream of events without
    raising: no index of [table_rows] is ever out of range and no point is
    ever built from a missing coordinate. *)
Theorem new_tool_never_raises (env0 : Env num TC)
    (evs : list (Env num TC * Event)) (h : Host num) :
  exists t' h', run evs (MeasureMapTool_init env0, h) = Ok (t', h').
Proof.
  destruct (run_wellformed evs (MeasureMapTool_init env0) h) as (t' & h' & Hr & _).
  - left. apply init_idle.
  - by exists t', h'.
Qed.

(** X2: whatever the events, the table of a tool that started new is either
    empty, with all counters at 0, or a run of complete rows followed by
    exactly one open row; the ids are 1, 2, ... in table order, [n] is the
    index of the open row, and the id and click counters both equal the
    number of rows. *)
Theorem table_shape_invariant (env0 : Env num TC)
    (evs : list (Env num TC * Event)) (h : Host num) :
  exists t' h',
    run evs (MeasureMapTool_init env0, h) = Ok (t', h') /\
    map Line_ID (table_rows t') = ids_from 1 (length (table_rows t')) /\
    point_id_counter t' = Z.of_nat (length (table_rows t')) /\
    click_count t' = Z.of_nat (length (table_rows t')) /\
    (table_rows t' = [] /\ last_point t' = None \/
     exists rows open,
       table_rows t' = rows ++ [open] /\
       Forall (fun r => complete r = true) rows /\
       complete open = false /\
       n t' = Z.of_nat (length rows) /\
       is_Some (last_point t')).
Proof.
  destruct (run_wellformed evs (MeasureMapTool_init env0) h) as (t' & h' & Hr & Hwf).
  { left. apply init_idle. }
  exists t', h'. split; [done|].
  destruct Hwf as [[Hrows ? ? ? ? ? ?]|(pre & start & [Hop Hc Hf Hi])].
  - rewrite Hrows. repeat split; try done. by left.
  - destruct Hop as [Hrows Hn _ Hid Hl _].
    rewrite Hrows, length_app, map_app, Hi. cbn [length map].
    rewrite Nat.add_1_r. repeat split.
    + rewrite ids_from_snoc. do 2 f_equal. simpl. lia.
    + done.
    + done.
    + right. exists pre, (spec_open_row (Z.of_nat (S (length pre))) start).
      repeat split; try done. by apply full_rows_complete.
Qed.

(** ** A session whose measuring flag is off *)

Lemma clicks_finish (env : Env num TC) (ev : Event) :
  is_finish ev = true -> clicks [(env, ev)] = [].
Proof. by destruct ev. Qed.

Lemma double_click_flag_off (env : Env num TC) (ev : Event) (t : Tool') (h : Host num) :
  is_finish ev = true -> is_measuring t = false ->
  handle env ev (t, h) = Ok (t, h).
Proof.
  destruct ev; try discriminate. intros _ Hm.
  unfold handle, canvasDoubleClickEvent. by rewrite Hm.
Qed.

(** X4: once a session is open with the measuring flag off (the state a
    double click without a complete segment leaves behind), it stays so:
    every event stream, double clicks included, is handled without raising,
    creates no layer and never sets the flag again, while every accepted
    click still extends the table. *)
Theorem flag_off_session_never_finalizes (evs : list (Env num TC * Event)) :
  forall (t : Tool') (h : Host num) pre id acc start,
    OpenSession pre id acc start t ->
    is_measuring t = false ->
    exists t' h',
      run evs (t, h) = Ok (t', h') /\
      is_measuring t' = false /\
      mapLayers h' = mapLayers h /\
      table_rows t' = pre ++ spec_rows id acc start (clicks evs) /\
      click_count t' = click_count t + Z.of_nat (length (clicks evs)).
Proof.
  induction evs as [|[env ev] rest IH]; intros t h pre id acc start Hop Hm.
  - exists t, h. destruct Hop. repeat split; try done. simpl. lia.
  - destruct (is_finish ev) eqn:Ef.
    + destruct (IH t h pre id acc start Hop Hm) as (t' & h' & Hr & ? & ? & ? & ?).
      exists t', h'. split.
      { cbn [run]. rewrite double_click_flag_off by done. exact Hr. }
      rewrite clicks_cons, clicks_finish by done. by repeat split.
    + destruct (handle_no_finish env ev t h Ef)
        as [[p ->]|[Hno (t1 & h1 & Hh & Hs & Hl)]].
      * destruct (press_next env p t pre id acc start Hop)
          as (t1 & Hp & Hop1 & Hc1 & Hm1 & _).
        assert (Hm1' : is_measuring t1 = false) by (by rewrite Hm1).
        destruct (IH t1 h _ _ _ _ Hop1 Hm1')
          as (t' & h' & Hr & ? & ? & Hrows & Hc).
        exists t', h'. split.
        { cbn [run handle fst snd]. rewrite Hp. exact Hr. }
        repeat split; try done.
        -- rewrite Hrows, <- app_assoc. reflexivity.
        -- rewrite Hc, Hc1. simpl. lia.
      * destruct (IH t1 h1 pre id acc start
                    (open_same_session _ _ _ _ _ _ Hs Hop))
          as (t' & h' & Hr & ? & ? & Hrows & Hc).
        { destruct Hs. congruence. }
        exists t', h'. split.
        { cbn [run]. rewrite Hh. exact Hr. }
        rewrite clicks_cons, Hno. cbn [app]. destruct Hs.
        repeat split; try done; congruence.
Qed.

(** ** One session after another *)

Lemma run_app (evs1 evs2 : list (Env num TC * Event)) (s : Tool' * Host num) :
  run (evs1 ++ evs2) s = run evs1 s ≫= run evs2.
Proof.
  revert s. induction evs1 as [|[env ev] rest IH]; intros s; [done|].
  cbn [app run]. destruct (handle env ev s); simpl; [apply IH|done].
Qed.

(** The double click that closes a session with at least one complete
    segment: one layer, one feature per complete segment, and the tool is
    idle again. *)
Lemma finish_after_session (envF : Env num TC) e p1 cs
    (t t1 : Tool') (h1 : Host num) :
  Session p1 cs t t1 -> cs <> [] ->
  exists t' h' feats,
    handle envF (CanvasDoubleClick e) (t1, h1) = Ok (t', h') /\
    Idle t' /\ main_rb t' = [] /\ temp_rb t' = [] /\
    mapLayers h' = mapLayers h1 ++ [measurement_layer envF feats] /\
    length feats = length cs.
Proof.
  intros [Hrows _ _ _ _ _ Hm _] Hcs.
  destruct (spec_rows_complete cs 1 f0 p1) as (rows & open & Hs & Hfl & Hl & Hy).
  assert (Hne : filter (fun r => is_Some (P2x r))
                  (table_rows (set_temp_rb [] t1)) <> []).
  { cbn [set_temp_rb table_rows]. rewrite Hrows, Hfl.
    destruct rows; [|done]. destruct cs; done. }
  assert (Hy1 : Forall (fun r => is_Some (P2y r))
                  (filter (fun r => is_Some (P2x r))
                     (table_rows (set_temp_rb [] t1)))).
  { cbn [set_temp_rb table_rows]. by rewrite Hrows, Hfl. }
  destruct (finish_measurement_output envF (set_temp_rb [] t1) h1 Hne Hy1)
    as (feats & t' & h' & Hf & H2 & Hlay & _ & ? & ? & ? & ? & ? & ? & ? & ?).
  cbn [set_temp_rb table_rows] in H2. rewrite Hrows, Hfl in H2.
  exists t', h', feats. split.
  { unfold handle, canvasDoubleClickEvent. by rewrite Hm. }
  split; [by split|]. split; [done|]. split.
  { unfold finish_measurement in Hf. cbn [set_is_measuring table_rows] in Hf.
    destruct (Z.of_nat _ =? 0) in Hf; [by injection Hf as <- _|].
    destruct (mapM _ _) in Hf; simpl in Hf; [|discriminate].
    by injection Hf as <- _. }
  split; [done|]. rewrite <- Hl. symmetry. by eapply Forall2_length.
Qed.

(** X5: a session that follows a finalized one starts over: its table, its
    ids (from 1 again) and its accumulator (from 0.0 again) are those of its
    own clicks alone, and the layer of the first session holds one feature
    per segment of the first session. *)
Theorem second_session_starts_over
    (evs1 evs2 : list (Env num TC * Event)) (t : Tool') (h : Host num)
    env1 p1 cs1 (envF : Env num TC) (e : QgsMapMouseEvent) env2 p2 cs2 :
  click_count t = 0 ->
  Forall (fun p => is_finish p.2 = false) evs1 ->
  clicks evs1 = (env1, p1) :: cs1 ->
  cs1 <> [] ->
  Forall (fun p => is_finish p.2 = false) evs2 ->
  clicks evs2 = (env2, p2) :: cs2 ->
  exists t' h' feats,
    run (evs1 ++ (envF, CanvasDoubleClick e) :: evs2) (t, h) = Ok (t', h') /\
    table_rows t' = spec_rows 1 f0 p2 cs2 /\
    var_cum_length_m t' = accumulate f0 (spec_lengths p2 cs2) /\
    point_id_counter t' = Z.of_nat (S (length cs2)) /\
    click_count t' = Z.of_nat (S (length cs2)) /\
    mapLayers h' = mapLayers h ++ [measurement_layer envF feats] /\
    length feats = length cs1.
Proof.
  intros H0 Hnf1 Hcl1 Hcs1 Hnf2 Hcl2.
  destruct (run_session evs1 t h env1 p1 cs1 H0 Hnf1 Hcl1)
    as (t1 & h1 & Hr1 & Hse1 & Hl1).
  destruct (finish_after_session envF e p1 cs1 t t1 h1 Hse1 Hcs1)
    as (t2 & h2 & feats & Hh & Hid & _ & _ & Hl2 & Hn).
  destruct Hid as [_ _ _ _ _ Hc2 _].
  destruct (run_session evs2 t2 h2 env2 p2 cs2 Hc2 Hnf2 Hcl2)
    as (t' & h' & Hr2 & Hse2 & Hl3).
  exists t', h', feats. split.
  { rewrite run_app, Hr1. cbn [mbind Result_bind run]. rewrite Hh. exact Hr2. }
  destruct Hse2. repeat split; try done. congruence.
Qed.

(** ** The layer of a finalization *)

(** X6: the layer that [finish_measurement] adds is also the one whose
    attribute table is shown; it is a LineString layer in the reference
    system of the canvas at that moment; feature k is built from the k-th
    complete row: its geometry is the segment between the row's stored end
    points, its first attribute is the row's id, and it has one attribute
    for each of the seven fields of the layer.  The message bar is not
    touched. *)
Theorem finish_layer_matches_rows (env : Env num TC) (t : Tool') (h : Host num) :
  let rows := filter (fun r => is_Some (P2x r)) (table_rows t) in
  rows <> [] ->
  Forall (fun r => is_Some (P2y r)) rows ->
  exists feats t' h',
    finish_measurement env (t, h) = Ok (t', h') /\
    mapLayers h' = mapLayers h ++ [measurement_layer env feats] /\
    attributeTables h' = attributeTables h ++ [measurement_layer env feats] /\
    messageBar h' = messageBar h /\
    layer_uri (measurement_layer env feats)
      = "LineString?crs=" +:+ authid (destinationCrs env) /\
    length feats = length rows /\
    forall (k : nat) r,
      rows !! k = Some r ->
      exists f x2 y2,
        feats !! k = Some f /\ P2x r = Some x2 /\ P2y r = Some y2 /\
        geometry f = [ {| x := P1x r; y := P1y r |}; {| x := x2; y := y2 |} ] /\
        attributes f !! 0%nat = Some (VInt (Line_ID r)) /\
        length (attributes f) = length (layer_fields (measurement_layer env feats)).
Proof.
  intros rows Hne Hy.
  destruct (finish_measurement_output env t h Hne Hy)
    as (feats & t' & h' & Hf & H2 & Hl & Ha & _).
  exists feats, t', h'. split; [done|]. split; [done|]. split; [done|].
  split.
  { unfold finish_measurement in Hf. cbn [set_is_measuring table_rows] in Hf.
    destruct (Z.of_nat _ =? 0) in Hf; [by injection Hf as _ <-|].
    destruct (mapM _ _) in Hf; simpl in Hf; [|discriminate].
    by injection Hf as _ <-. }
  split; [done|]. split; [symmetry; by eapply Forall2_length|].
  intros k r Hk.
  destruct (Forall2_lookup_l _ _ _ _ _ H2 Hk) as (f & Hfk & Hb).
  assert (Hx : is_Some (P2x r)).
  { apply list_elem_of_lookup_2 in Hk. by apply list_elem_of_filter in Hk as [? _]. }
  assert (Hy' : is_Some (P2y r)) by by eapply Forall_lookup_1 in Hy.
  destruct Hx as [x2 Hx], Hy' as [y2 Hy'].
  exists f, x2, y2. split; [done|]. split; [done|]. split; [done|].
  unfold build_feature in Hb. rewrite Hx, Hy' in Hb. simpl in Hb.
  destruct (isGeographic (destinationCrs env)); injection Hb as <-; by repeat split.
Qed.

(** ** The committed overlay *)

Lemma press_first_overlay (env : Env num TC) (p : Z * Z) (t t' : Tool') :
  click_count t = 0 ->
  canvasPressEvent env {| button := LeftButton; pos := p |} t = Ok t' ->
  main_rb t' = [].
Proof.
  intros H0. unfold canvasPressEvent. simpl. rewrite H0. simpl.
  by intros [= <-].
Qed.

Lemma press_next_overlay (env : Env num TC) (p : Z * Z) (t t' : Tool')
    pre id acc start :
  OpenSession pre id acc start t ->
  canvasPressEvent env {| button := LeftButton; pos := p |} t = Ok t' ->
  main_rb t' = main_rb t ++ [start; toMapCoordinates env p].
Proof.
  intros [Hrows Hn Hacc Hid Hlast Hc].
  unfold canvasPressEvent. simpl.
  destruct (click_count t + 1 =? 1) eqn:E; [apply Z.eqb_eq in E; lia|].
  rewrite Hrows, Hn, py_update_last. simpl.
  rewrite py_update_last. simpl.
  unfold calculate_segment. simpl.
  rewrite py_getitem_last. simpl.
  rewrite py_update_last. simpl.
  rewrite Hlast. simpl.
  intros [= <-]. simpl. by rewrite <- app_assoc.
Qed.

(** Events that are neither a click, nor a double click, nor the escape
    key leave the committed overlay alone. *)
Lemma handle_keeps_overlay (env : Env num TC) (ev : Event)
    (t t' : Tool') (h h' : Host num) :
  is_finish ev = false -> is_escape ev = false ->
  clicks [(env, ev)] = [] ->
  handle env ev (t, h) = Ok (t', h') ->
  main_rb t' = main_rb t.
Proof.
  intros Hf He Hc. destruct ev as [[b q]|e|e|k]; try discriminate.
  - destruct b; try discriminate; by intros [= <- <-].
  - unfold handle, canvasMoveEvent.
    destruct (is_measuring t), (last_point t); by intros [= <- <-].
  - unfold handle, keyPressEvent. simpl in He. rewrite He. by intros [= <- <-].
Qed.

Lemma run_open_overlay (evs : list (Env num TC * Event)) :
  forall (t : Tool') (h : Host num) pre id acc start,
    Forall (fun p => is_finish p.2 = false /\ is_escape p.2 = false) evs ->
    OpenSession pre id acc start t ->
    exists t' h',
      run evs (t, h) = Ok (t', h') /\
      main_rb t' = main_rb t ++ spec_overlay start (clicks evs).
Proof.
  induction evs as [|[env ev] rest IH]; intros t h pre id acc start Hev Hop.
  - exists t, h. split; [done|]. simpl. by rewrite app_nil_r.
  - inversion Hev as [|? ? [Hf He] Hrest]; subst. simpl in Hf, He.
    destruct (handle_no_finish env ev t h Hf)
      as [[p ->]|[Hno (t1 & h1 & Hh & Hs & _)]].
    + destruct (press_next env p t pre id acc start Hop)
        as (t1 & Hp & Hop1 & _).
      destruct (IH t1 h _ _ _ _ Hrest Hop1) as (t' & h' & Hr & Ho).
      exists t', h'. split.
      { cbn [run handle fst snd]. rewrite Hp. exact Hr. }
      rewrite Ho, (press_next_overlay env p t t1 _ _ _ _ Hop Hp).
      rewrite <- app_assoc. reflexivity.
    + destruct (IH t1 h1 pre id acc start Hrest
                  (open_same_session _ _ _ _ _ _ Hs Hop))
        as (t' & h' & Hr & Ho).
      exists t', h'. split.
      { cbn [run]. rewrite Hh. exact Hr. }
      rewrite clicks_cons, Hno. cbn [app].
      rewrite Ho. f_equal. by eapply handle_keeps_overlay.
Qed.

Lemma spec_overlay_length (start : Point') (cs : list (Env num TC * Point')) :
  length (spec_overlay start cs) = (2 * length cs)%nat.
Proof.
  revert start. induction cs as [|[env pt] cs IH]; intros; simpl; [done|].
  rewrite IH. lia.
Qed.

(** X7: in a session without escape key, the committed overlay is exactly the
    polyline of the session: both end points of every complete segment, in
    order, as they were clicked (not as they are stored), two per complete
    row. *)
Theorem committed_overlay_follows_clicks (evs : list (Env num TC * Event)) :
  forall (t : Tool') (h : Host num) env1 p1 cs,
    click_count t = 0 ->
    Forall (fun p => is_finish p.2 = false /\ is_escape p.2 = false) evs ->
    clicks evs = (env1, p1) :: cs ->
    exists t' h',
      run evs (t, h) = Ok (t', h') /\
      main_rb t' = spec_overlay p1 cs /\
      length (main_rb t') = (2 * length cs)%nat.
Proof.
  induction evs as [|[env ev] rest IH]; intros t h env1 p1 cs H0 Hev Hcl;
    [discriminate|].
  inversion Hev as [|? ? [Hf He] Hrest]; subst. simpl in Hf, He.
  destruct (handle_no_finish env ev t h Hf)
    as [[p ->]|[Hno (t1 & h1 & Hh & Hs & _)]].
  - simpl in Hcl. injection Hcl as <- <- <-.
    destruct (press_first env p t H0) as (t1 & Hp & Hop & _).
    destruct (run_open_overlay rest t1 h _ _ _ _ Hrest Hop) as (t' & h' & Hr & Ho).
    exists t', h'. split.
    { cbn [run handle fst snd]. rewrite Hp. exact Hr. }
    rewrite Ho, (press_first_overlay env p t t1 H0 Hp). cbn [app].
    split; [done|apply spec_overlay_length].
  - rewrite clicks_cons, Hno in Hcl. cbn [app] in Hcl.
    assert (H1 : click_count t1 = 0) by (destruct Hs; congruence).
    destruct (IH t1 h1 env1 p1 cs H1 Hrest Hcl) as (t' & h' & Hr & Ho & Hl).
    exists t', h'. split; [|done]. cbn [run]. rewrite Hh. exact Hr.
Qed.

(** ** The preview *)

(** X8: a pointer move never touches the table, the counters, the
    accumulator, the open-segment vertex, the flag, the calculator, the
    committed overlay, or the layers and the tool of the host.  Without a
    session, or without an open-segment vertex, it does nothing at all;
    otherwise the preview overlay becomes the one segment from the
    open-segment vertex to the pointer, and the message bar holds the new
    status message and nothing else. *)
Theorem move_touches_preview_only (env : Env num TC) (e : QgsMapMouseEvent)
    (t : Tool') (h : Host num) :
  let s' := canvasMoveEvent env e (t, h) in
  (table_rows s'.1 = table_rows t /\ n s'.1 = n t /\
   var_cum_length_m s'.1 = var_cum_length_m t /\
   last_point s'.1 = last_point t /\ click_count s'.1 = click_count t /\
   is_measuring s'.1 = is_measuring t /\ da s'.1 = da t /\
   point_id_counter s'.1 = point_id_counter t /\ main_rb s'.1 = main_rb t) /\
  (mapLayers s'.2 = mapLayers h /\ attributeTables s'.2 = attributeTables h /\
   mapTool s'.2 = mapTool h /\ action_checked s'.2 = action_checked h) /\
  (is_measuring t = false \/ last_point t = None -> s' = (t, h)) /\
  (forall lp,
      is_measuring t = true -> last_point t = Some lp ->
      temp_rb s'.1 = [lp; toMapCoordinates env (pos e)] /\
      length (messageBar s'.2) = 1%nat).
Proof.
  unfold canvasMoveEvent.
  destruct (is_measuring t) eqn:Em, (last_point t) as [lp|] eqn:El; simpl.
  all: repeat split; try done.
  all: try (intros [?|?]; done).
  all: try (intros lp' _ [= <-]; done).
  congruence.
Qed.

(** ** Toggle and unload *)

(** X9: after a toggle the plugin has a tool, the action is checked exactly
    when the tool is the canvas' map tool, and layers and messages are as
    before; the first toggle builds the tool, with the calculator of that
    moment, and activates it. *)
Theorem toggle_checked_mirrors_canvas (env : Env num TC)
    (s : AdvancedMeasureTool num TC * Host num) :
  let s' := toggle_tool env s in
  is_Some (tool s'.1) /\
  action_checked s'.2 = canvas_tool_eqb (mapTool s'.2) MeasureTool /\
  mapLayers s'.2 = mapLayers s.2 /\
  messageBar s'.2 = messageBar s.2 /\
  (tool s.1 = None ->
   tool s'.1 = Some (MeasureMapTool_init env) /\ mapTool s'.2 = MeasureTool).
Proof.
  destruct s as [[[t|]] h]; unfold toggle_tool; simpl.
  - destruct (canvas_tool_eqb (mapTool h) MeasureTool); simpl;
      repeat split; try done; try by eexists.
  - repeat split; try done; try by eexists.
Qed.

(** X10: unloading while the tool is the canvas' map tool drops the tool, so
    the next toggle builds a new one: an idle tool without rows, with the
    calculator of the host at that toggle. *)
Theorem unload_active_then_toggle_is_new (env : Env num TC)
    (p : AdvancedMeasureTool num TC) (h : Host num) (t : Tool') :
  tool p = Some t ->
  mapTool h = MeasureTool ->
  unload (p, h) = ({| tool := None |}, unsetMapTool h) /\
  toggle_tool env (unload (p, h))
    = ({| tool := Some (MeasureMapTool_init env) |},
       setMapTool MeasureTool true h) /\
  fresh_session (MeasureMapTool_init env).
Proof.
  intros Ht Hm. unfold unload. rewrite Ht, Hm. simpl.
  repeat split; reflexivity.
Qed.

(** X11: unloading after the tool was toggled off leaves the tool object in
    place, and the toggle after that puts it back on the canvas with the
    session it had: toggle off, unload, toggle on returns the very same tool
    state. *)
Theorem toggled_off_tool_survives_unload (env : Env num TC)
    (p : AdvancedMeasureTool num TC) (h : Host num) (t : Tool') :
  tool p = Some t ->
  mapTool h = MeasureTool ->
  unload (toggle_tool env (p, h)) = toggle_tool env (p, h) /\
  toggle_tool env (unload (toggle_tool env (p, h)))
    = ({| tool := Some t |}, setMapTool MeasureTool true h).
Proof.
  intros Ht Hm. unfold toggle_tool, unload. rewrite Ht, Hm. simpl. done.
Qed.

(** ** [calculate_segment] on its own *)

Lemma py_index_out_of_range {A : Type} (l : list A) (i : Z) :
  i < - Z.of_nat (length l) \/ Z.of_nat (length l) <= i ->
  py_index l i = Raise IndexError.
Proof.
  intros Hi. unfold py_index.
  destruct (0 <=? i) eqn:E1, (i <? Z.of_nat (length l)) eqn:E2,
           (- Z.of_nat (length l) <=? i) eqn:E3, (i <? 0) eqn:E4;
    simpl; try reflexivity; exfalso;
    repeat match goal with
           | H : (_ <=? _) = true |- _ => apply Z.leb_le in H
           | H : (_ <=? _) = false |- _ => apply Z.leb_gt in H
           | H : (_ <? _) = true |- _ => apply Z.ltb_lt in H
           | H : (_ <? _) = false |- _ => apply Z.ltb_ge in H
           end; lia.
Qed.


(** X12: an index outside the table, below [-len] or from [len] on, makes
    [calculate_segment] raise IndexError. *)
Theorem calculate_segment_index_error (env : Env num TC) (idx : Z) (t : Tool') :
  idx < - Z.of_nat (length (table_rows t)) \/
  Z.of_nat (length (table_rows t)) <= idx ->
  calculate_segment env idx t = Raise IndexError.
Proof.
  intros Hi. unfold calculate_segment, py_getitem.
  by rewrite py_index_out_of_range.
Qed.



End Lifecycle.

(** ** The life cycle at concrete sessions *)

Lemma calculator_never_updated_witness :
  exists t' h',
    run after_crs_change (MeasureMapTool_init env_deg, empty_host) = Ok (t', h') /\
    da t' = da (MeasureMapTool_init env_deg).
Proof.
  eexists _, _. split; [vm_compute; reflexivity|].
  eapply (calculator_never_updated after_crs_change
            (MeasureMapTool_init env_deg) _ empty_host).
  vm_compute. reflexivity.
Defined.

Lemma flag_off_session_never_finalizes_witness :
  exists t' h',
    run measure_after_double_click (flag_off_tool, empty_host) = Ok (t', h') /\
    is_measuring t' = false /\
    mapLayers h' = mapLayers empty_host /\
    length (table_rows t') = 3%nat.
Proof.
  destruct (flag_off_session_never_finalizes measure_after_double_click
              flag_off_tool empty_host [] 1 f0 (fine_grid (0, 0)))
    as (t' & h' & Hr & Hm & Hl & Hrows & _).
  - split; vm_compute; first [reflexivity | discriminate].
  - reflexivity.
  - exists t', h'. repeat split; try assumption.
    rewrite Hrows. reflexivity.
Defined.

Lemma second_session_starts_over_witness :
  exists t' h' feats,
    run (three_clicks ++ (env_geo, double_click 14 25) :: one_degree_clicks)
        (MeasureMapTool_init env_geo, empty_host) = Ok (t', h') /\
    map Line_ID (table_rows t') = [1; 2] /\
    point_id_counter t' = 2 /\
    mapLayers h' = [measurement_layer env_geo feats] /\
    length feats = 2%nat.
Proof.
  destruct (second_session_starts_over three_clicks one_degree_clicks
              (MeasureMapTool_init env_geo) empty_host
              env_geo (fine_grid (0, 0))
              [(env_geo, fine_grid (14, 0)); (env_geo, fine_grid (14, 25))]
              env_geo {| button := LeftButton; pos := (14, 25) |}
              env_utm (unit_grid (500000, 0))
              [(env_utm, unit_grid (500000, 111320))]
              eq_refl
              ltac:(repeat constructor)
              eq_refl
              ltac:(discriminate)
              ltac:(repeat constructor)
              eq_refl)
    as (t' & h' & feats & Hr & Hrows & _ & Hid & _ & Hl & Hn).
  exists t', h', feats. repeat split; try assumption.
  rewrite Hrows. reflexivity.
Defined.

Lemma finish_layer_matches_rows_witness :
  exists feats t' h',
    finish_measurement env_geo (measuring_tool, empty_host) = Ok (t', h') /\
    attributeTables h' = [measurement_layer env_geo feats] /\
    length feats = 2%nat.
Proof.
  destruct (finish_layer_matches_rows env_geo measuring_tool empty_host)
    as (feats & t' & h' & Hf & _ & Ha & _ & _ & Hn & _).
  - vm_compute. discriminate.
  - vm_compute. repeat constructor; eexists; reflexivity.
  - exists feats, t', h'. repeat split; assumption.
Defined.

Lemma committed_overlay_follows_clicks_witness :
  exists t' h',
    run three_clicks_no_escape (MeasureMapTool_init env_geo, empty_host)
      = Ok (t', h') /\
    main_rb t' = [ fine_grid (0, 0); fine_grid (14, 0);
                   fine_grid (14, 0); fine_grid (14, 25) ].
Proof.
  destruct (committed_overlay_follows_clicks three_clicks_no_escape
              (MeasureMapTool_init env_geo) empty_host
              env_geo (fine_grid (0, 0))
              [(env_geo, fine_grid (14, 0)); (env_geo, fine_grid (14, 25))]
              eq_refl
              ltac:(repeat constructor)
              eq_refl)
    as (t' & h' & Hr & Ho & _).
  exists t', h'. split; assumption.
Defined.

Lemma unload_active_then_toggle_is_new_witness :
  toggle_tool env_utm (unload measuring_plugin)
    = ({| tool := Some (MeasureMapTool_init env_utm) |},
       setMapTool MeasureTool true empty_host).
Proof.
  apply (unload_active_then_toggle_is_new env_utm
           {| tool := Some measuring_tool |} empty_host measuring_tool);
    reflexivity.
Defined.

Lemma toggled_off_tool_survives_unload_witness :
  toggle_tool env_utm (unload (toggle_tool env_utm measuring_plugin))
    = ({| tool := Some measuring_tool |}, setMapTool MeasureTool true empty_host).
Proof.
  apply (toggled_off_tool_survives_unload env_utm
           {| tool := Some measuring_tool |} empty_host measuring_tool);
    reflexivity.
Defined.


Lemma calculate_segment_index_error_witness :
  calculate_segment env_geo 3 measuring_tool = Raise IndexError.
Proof.
  apply (calculate_segment_index_error env_geo 3 measuring_tool).
  right. vm_compute. discriminate.
Defined.

